(** * Provider registry, submit/poll adapters and parallel polling

    A shallow embedding of [tools/providers/__init__.py],
    [tools/providers/replicate.py] and [tools/providers/wavespeed.py].

    Python dictionaries whose key order is observable (the static catalogs,
    whose keys are listed in error messages) are association lists; the
    mutable module-level [_task_poll_urls] dictionaries and the result
    dictionaries of [poll_tasks_parallel] are [gmap string _].  Exceptions
    are values of [exn]; a call that may raise returns an [Outcome].
    [print_status] only writes to the terminal and is left out, and with it
    the [completed] progress list and, in the Replicate adapter, the [quiet]
    flag, which guard or feed nothing else.  Times ([max_wait],
    [poll_interval], the clock) are integers in one fixed unit. *)

From Stdlib Require Import ZArith QArith Lia.
From stdpp Require Import base option list gmap strings.

Set Warnings "-register-all".
Local Open Scope string_scope.
Local Open Scope list_scope.
Local Open Scope Z_scope.

(** ** Python values *)

(** What [response.json()] produces, and what is sent as a request body. *)
Inductive json : Type :=
  | JNull
  | JBool (b : bool)
  | JNum (n : Z)
  | JReal (q : Q)
  | JStr (s : string)
  | JList (l : list json)
  | JDict (d : list (string * json)).

(** Python truthiness: [None], [False], zero, and empty containers are falsy. *)
Definition truthy (v : json) : bool :=
  match v with
  | JNull => false
  | JBool b => b
  | JNum n => negb (n =? 0)
  | JReal q => negb (Qeq_bool q 0)
  | JStr s => negb (String.eqb s "")
  | JList l => match l with [] => false | _ => true end
  | JDict d => match d with [] => false | _ => true end
  end.

(** [a or b] *)
Definition py_or (a b : json) : json := if truthy a then a else b.

(** [v == s] for a string literal [s]: only a string equals a string. *)
Definition str_eq (v : json) (s : string) : bool :=
  match v with
  | JStr t => String.eqb t s
  | _ => false
  end.

(** Truthiness of a value that is either [None] or a [str]. *)
Definition truthy_str (o : option string) : bool :=
  match o with
  | Some s => negb (String.eqb s "")
  | None => false
  end.

(** ** Dictionaries with observable key order *)

Fixpoint dict_get {V : Type} (d : list (string * V)) (k : string) : option V :=
  match d with
  | [] => None
  | (k', v) :: d' => if String.eqb k' k then Some v else dict_get d' k
  end.

(** [list(d.keys())] *)
Definition keys {V : Type} (d : list (string * V)) : list string := d.*1.

(** [d.get(k)] on a parsed JSON object: a missing key gives [None]. *)
Definition json_get (d : list (string * json)) (k : string) : json :=
  default JNull (dict_get d k).

(** ** Exceptions and outcomes *)

Inductive GenerationKind := Image | Video.

Inductive Vendor := Replicate | WaveSpeed.

Inductive exn : Type :=
  (* registry: "Unknown image model: '...'. Available: [...]" *)
  | UnknownModel (kind : GenerationKind) (model : string) (available : list string)
  (* registry: "Provider '...' not available for '...'. Available: [...]" *)
  | ProviderNotAvailable (provider model : string) (available : list string)
  (* adapter: "Replicate doesn't support image model: '...'. Available: [...]" *)
  | UnsupportedModel (v : Vendor) (kind : GenerationKind) (model : string)
                     (available : list string)
  (* "No payload builder for ... model: ..." *)
  | NoPayloadBuilder (v : Vendor) (model : string)
  (* "Replicate API error <code>: <text>" *)
  | ApiError (status_code : Z) (text : string)
  (* "Missing id or poll URL in Replicate response: ..." *)
  | MissingIdOrPollUrl
  (* "No poll URL stored for ... task <id>. Was submit_image called in this session?" *)
  | NoPollUrlStored (v : Vendor) (task_id : string) (kind : GenerationKind)
  (* "No poll URL for task <id>", raised inside [_poll_one] *)
  | NoPollUrl (task_id : string)
  (* "Poll failed after retries: <text>" *)
  | PollFailedAfterRetries (text : string)
  (* "No usable output in succeeded prediction: <data>" *)
  | NoUsableOutput (data : json)
  (* "Replicate prediction <status>: <error>" *)
  | PredictionFailed (status : json) (error : json)
  (* "Timeout waiting for Replicate prediction after <max_wait>s" *)
  | PollTimeout (max_wait : Z)
  (* raised by the Python runtime or by [requests] *)
  | RequestException (msg : string)
  | JSONDecodeError
  | AttributeError
  | ValueError (msg : string)
  | TypeError (msg : string)
  | OverflowError (msg : string)
  (* anything a helper outside these modules raises *)
  | OtherException (msg : string).

Inductive Outcome (A : Type) : Type :=
  | Return (a : A)
  | Raise (e : exn).
Arguments Return {A} a.
Arguments Raise {A} e.

#[global] Instance outcome_ret : MRet Outcome := @Return.

#[global] Instance outcome_bind : MBind Outcome := λ A B k m,
  match m with
  | Return a => k a
  | Raise e => Raise e
  end.

(** The result dictionaries: [{"status": "success", "task_id", "result_url"}]
    and [{"status": "error", "task_id", "error": str(e)}]. *)
Inductive GenerationResult : Type :=
  | Success (task_id : string) (result_url : json)
  | Error (task_id : string) (error : exn).

Definition result_status (r : GenerationResult) : string :=
  match r with
  | Success _ _ => "success"
  | Error _ _ => "error"
  end.

Definition result_task_id (r : GenerationResult) : string :=
  match r with
  | Success t _ => t
  | Error t _ => t
  end.

(** ** The registry, [tools/providers/__init__.py] *)

Module providers.

(** The four adapter modules imported by the registry. *)
Inductive ProviderModule := kie | google | wavespeed | replicate.

Record ModelConfig := {
  default_provider : string;                       (* ["default"] *)
  provider_map : list (string * ProviderModule)    (* ["providers"] *)
}.

Definition IMAGE_PROVIDERS : list (string * ModelConfig) :=
  [ ("nano-banana",
      {| default_provider := "google";
         provider_map := [("google", google); ("kie", kie)] |});
    ("nano-banana-pro",
      {| default_provider := "google";
         provider_map := [("google", google); ("kie", kie)] |});
    ("gpt-image-1.5",
      {| default_provider := "wavespeed";
         provider_map := [("wavespeed", wavespeed)] |});
    ("flux-schnell",
      {| default_provider := "replicate";
         provider_map := [("replicate", replicate)] |});
    ("flux-dev",
      {| default_provider := "replicate";
         provider_map := [("replicate", replicate)] |}) ].

Definition VIDEO_PROVIDERS : list (string * ModelConfig) :=
  [ ("kling-3.0",
      {| default_provider := "wavespeed";
         provider_map := [("kie", kie); ("wavespeed", wavespeed)] |});
    ("sora-2",
      {| default_provider := "wavespeed";
         provider_map := [("wavespeed", wavespeed)] |});
    ("sora-2-pro",
      {| default_provider := "wavespeed";
         provider_map := [("kie", kie); ("wavespeed", wavespeed)] |});
    ("veo-3.1",
      {| default_provider := "google";
         provider_map := [("google", google)] |});
    ("ltx-video",
      {| default_provider := "replicate";
         provider_map := [("replicate", replicate)] |});
    ("wan-2.1",
      {| default_provider := "replicate";
         provider_map := [("replicate", replicate)] |});
    ("cogvideox",
      {| default_provider := "replicate";
         provider_map := [("replicate", replicate)] |});
    ("minimax-video",
      {| default_provider := "replicate";
         provider_map := [("replicate", replicate)] |}) ].

(** [provider_override or model_config["default"]]: [None] and the empty
    string are both falsy. *)
Definition override_or (provider_override : option string) (dflt : string) : string :=
  match provider_override with
  | Some p => if truthy_str (Some p) then p else dflt
  | None => dflt
  end.

(** The body shared by [get_image_provider] and [get_video_provider], which
    differ in the catalog and in one word of the first message.  A found
    model configuration is a two-key dictionary and a found provider is a
    module object, so [not model_config] and [not provider] hold exactly
    when [.get] found nothing. *)
Definition get_provider (kind : GenerationKind) (catalog : list (string * ModelConfig))
    (model : string) (provider_override : option string)
    : Outcome (ProviderModule * string) :=
  match dict_get catalog model with
  | None => Raise (UnknownModel kind model (keys catalog))
  | Some model_config =>
      let provider_name := override_or provider_override (default_provider model_config) in
      match dict_get (provider_map model_config) provider_name with
      | None =>
          let available := keys (provider_map model_config) in
          Raise (ProviderNotAvailable provider_name model available)
      | Some provider => Return (provider, provider_name)
      end
  end.

Definition get_image_provider (model : string) (provider_override : option string) :=
  get_provider Image IMAGE_PROVIDERS model provider_override.

Definition get_video_provider (model : string) (provider_override : option string) :=
  get_provider Video VIDEO_PROVIDERS model provider_override.

End providers.

(** ** HTTP, as the adapters see it *)

(** [requests.get]/[requests.post] either raise or give a response. *)
Inductive Transport (R : Type) : Type :=
  | Responded (response : R)
  | ConnectionFailed (msg : string).
Arguments Responded {R} response.
Arguments ConnectionFailed {R} msg.

(** A poll response: [status_code], [text], and what [.json()] parses
    ([None] when the body is not JSON and [.json()] raises). *)
Record Response := {
  status_code : Z;
  text : string;
  body : option json
}.

(** What [_submit_prediction] reads of a submit response once [.json()] has
    parsed it.  The body is an object or another JSON value.  Its ["id"] is
    falsy (absent, null, [""], [0], [false], an empty list or object), a
    string, or a non-empty list or object.  Its ["urls"] is absent, an
    object, or another value (null included); the ["get"] entry of that
    object is absent or falsy ([None]) or a string.  The adapter hands the
    id and the URL on as [str] (so the docstrings of [_submit_prediction]
    and [submit_image]): an id that is a non-zero number or [true], and a
    ["get"] value that is truthy without being a string, would make it
    hand on a value of another type, and have no constructor here. *)
Inductive IdField : Type :=
  | IdFalsy
  | IdStr (s : string)
  | IdList
  | IdObject.

Inductive UrlsField : Type :=
  | UrlsAbsent
  | UrlsNotObject
  | UrlsObject (get_url : option string).

Inductive SubmitBody : Type :=
  | BodyNotObject
  | BodyObject (id : IdField) (urls : UrlsField).

(** A truthy ["id"], as it goes into [{"task_id": ..., "poll_url": ...}]. *)
Inductive TaskKey : Type :=
  | KeyStr (s : string)
  | KeyList
  | KeyObject.

Record PostResponse := {
  post_status_code : Z;
  post_text : string;
  post_body : option SubmitBody   (* [None]: [.json()] raises *)
}.

(** What one poll loop sees of its vendor: the answer to its [k]-th GET and
    how long that GET takes. *)
Record PollEnv := {
  get : nat → Transport Response;
  latency : nat → Z
}.

(** The local variables of a poll loop: GETs issued so far, [retry_count],
    and [time.time() - start_time]. *)
Record LoopState := {
  requests : nat;
  retry_count : Z;
  elapsed : Z
}.

Definition loop_entry : LoopState :=
  {| requests := 0; retry_count := 0; elapsed := 0 |}.

(** One pass through a loop body either falls through to the loop test or
    leaves the function. *)
Inductive Step : Type :=
  | Continue (st : LoopState)
  | Stop (o : Outcome GenerationResult) (st : LoopState).

(** [time.sleep(secs)]; a negative length is a [ValueError]. *)
Definition sleep (secs : Z) (st : LoopState) : Step :=
  if secs <? 0 then
    Stop (Raise (ValueError "sleep length must be non-negative")) st
  else
    Continue {| requests := requests st;
                retry_count := retry_count st;
                elapsed := elapsed st + secs |}.

Definition nonempty (s : string) : bool := negb (String.eqb s "").

(** A Python object as [int()] sees it: either it converts to an integer
    (an int, a numeral string, a float that truncates to it), or [int()]
    raises the interpreter's [ValueError] (a string that is no numeral, a
    NaN), [TypeError] ([None], a list) or [OverflowError] (an infinite
    float), with the interpreter's message. *)
Inductive IntArg : Type :=
  | IntValue (n : Z)
  | IntValueError (msg : string)
  | IntTypeError (msg : string)
  | IntOverflowError (msg : string).

(** [int(duration)] *)
Definition py_int (duration : IntArg) : Outcome Z :=
  match duration with
  | IntValue n => Return n
  | IntValueError msg => Raise (ValueError msg)
  | IntTypeError msg => Raise (TypeError msg)
  | IntOverflowError msg => Raise (OverflowError msg)
  end.

(** ** The fan-out shared by both adapters' [poll_tasks_parallel] *)

(** [min(total, 20)] *)
Definition max_workers (total : nat) : nat := Nat.min total 20.

(** What the [try]/[except Exception] around [future.result()] stores. *)
Definition result_of (tid : string) (o : Outcome GenerationResult) : GenerationResult :=
  match o with
  | Return r => r
  | Raise e => Error tid e
  end.

(** The [for future in as_completed(futures)] loop.  [futures] lists, in
    submission order, each future's task id and what its [_poll_one]
    produced; [order] is the order in which the futures complete, given by
    their positions in [futures]. *)
Definition store_result (futures : list (string * Outcome GenerationResult))
    (results : gmap string GenerationResult) (i : nat) : gmap string GenerationResult :=
  match futures !! i with
  | Some (tid, o) => <[tid := result_of tid o]> results
  | None => results
  end.

Definition collect (futures : list (string * Outcome GenerationResult))
    (order : list nat) : gmap string GenerationResult :=
  foldl (store_result futures) ∅ order.

(** [{executor.submit(_poll_one, tid): tid for tid in task_ids}], with
    [None] for a worker that never returns. *)
Definition run_futures (_poll_one : nat → string → option (Outcome GenerationResult))
    (task_ids : list string) : option (list (string * Outcome GenerationResult)) :=
  mapM (λ '(i, tid), o ← _poll_one i tid; Some (tid, o)) (imap pair task_ids).

Definition poll_many (_poll_one : nat → string → option (Outcome GenerationResult))
    (order : list nat) (task_ids : list string)
    : option (gmap string GenerationResult) :=
  match task_ids with
  | [] => Some ∅
  | _ => futures ← run_futures _poll_one task_ids; Some (collect futures order)
  end.

(** ** [tools/providers/replicate.py] *)

Module replicate.

Definition image_IS_SYNC : bool := false.
Definition video_IS_SYNC : bool := false.

Definition _IMAGE_MODELS : list (string * string) :=
  [ ("flux-schnell", "black-forest-labs/flux-schnell");
    ("flux-dev", "black-forest-labs/flux-dev") ].

Definition _VIDEO_MODELS : list (string * string) :=
  [ ("ltx-video", "lightricks/ltx-video");
    ("wan-2.1", "wavespeed-ai/wan2.1-i2v-480p");
    ("cogvideox", "fofr/cogvideox-5b");
    ("minimax-video", "minimax/video-01-live") ].

(** The vendor's side of a submission: the answer to a POST to
    [<REPLICATE_API_URL>/models/<model_path>/predictions] with the given
    JSON body. *)
Definition Post : Type := string → json → Transport PostResponse.

(** The id when [not task_id] is false, as the dictionary key it will be. *)
Definition truthy_id (task_id : IdField) : option TaskKey :=
  match task_id with
  | IdFalsy => None
  | IdStr s => if nonempty s then Some (KeyStr s) else None
  | IdList => Some KeyList
  | IdObject => Some KeyObject
  end.

Definition _submit_prediction (post : Post) (model_path : string) (input_payload : json)
    : Outcome (TaskKey * string) :=
  match post model_path (JDict [("input", input_payload)]) with
  | ConnectionFailed msg => Raise (RequestException msg)
  | Responded response =>
      if negb ((post_status_code response =? 200) || (post_status_code response =? 201))
      then Raise (ApiError (post_status_code response) (post_text response))
      else
        match post_body response with
        | None => Raise JSONDecodeError
        | Some BodyNotObject => Raise AttributeError       (* [data.get] *)
        | Some (BodyObject task_id urls) =>
            match urls with
            | UrlsNotObject => Raise AttributeError        (* [.get("get")] *)
            | UrlsAbsent | UrlsObject None => Raise MissingIdOrPollUrl
            | UrlsObject (Some poll_url) =>
                match truthy_id task_id with
                | Some key =>
                    if nonempty poll_url
                    then Return (key, poll_url)
                    else Raise MissingIdOrPollUrl
                | None => Raise MissingIdOrPollUrl
                end
            end
        end
  end.

(** [_task_poll_urls[task_info["task_id"]] = task_info["poll_url"]] and
    [return task_info["task_id"]], the end of both submit functions: a list
    or an object cannot be a dictionary key. *)
Definition record_task (task_info : TaskKey * string)
    (_task_poll_urls : gmap string string) : Outcome string * gmap string string :=
  match task_info with
  | (KeyStr task_id, poll_url) =>
      (Return task_id, <[task_id := poll_url]> _task_poll_urls)
  | (KeyList, _) => (Raise (TypeError "unhashable type: 'list'"), _task_poll_urls)
  | (KeyObject, _) => (Raise (TypeError "unhashable type: 'dict'"), _task_poll_urls)
  end.

(** The body of the [while] loop of [_poll_prediction], entered with the
    response of the GET just made. *)
Definition poll_body (task_id : string) (poll_interval : Z)
    (st : LoopState) (t : Transport Response) : Step :=
  match t with
  | ConnectionFailed msg => Stop (Raise (RequestException msg)) st
  | Responded response =>
      if negb (status_code response =? 200) then
        let st := {| requests := requests st;
                     retry_count := retry_count st + 1;
                     elapsed := elapsed st |} in
        if 10 <? retry_count st
        then Stop (Raise (PollFailedAfterRetries (text response))) st
        else sleep poll_interval st
      else
        match body response with
        | None => Stop (Raise JSONDecodeError) st
        | Some (JDict data) =>
            let status := default (JStr "unknown") (dict_get data "status") in
            let st := {| requests := requests st;
                         retry_count := 0;
                         elapsed := elapsed st |} in
            if str_eq status "succeeded" then
              let output := json_get data "output" in
              match output with
              | JList (result_url :: _) =>
                  Stop (Return (Success task_id result_url)) st
              | JStr s =>
                  if nonempty s
                  then Stop (Return (Success task_id (JStr s))) st
                  else Stop (Raise (NoUsableOutput (JDict data))) st
              | _ => Stop (Raise (NoUsableOutput (JDict data))) st
              end
            else if str_eq status "failed" || str_eq status "canceled" then
              let error := py_or (json_get data "error") status in
              Stop (Raise (PredictionFailed status error)) st
            else sleep poll_interval st
        | Some _ => Stop (Raise AttributeError) st
        end
  end.

(** The [while time.time() - start_time < max_wait] loop.  Each GET
    advances the clock by its latency before the body runs.  [None] means
    the loop is still running after [fuel] iterations. *)
Fixpoint poll_loop (env : PollEnv) (task_id : string) (max_wait poll_interval : Z)
    (fuel : nat) (st : LoopState) : option (Outcome GenerationResult * LoopState) :=
  match fuel with
  | O => None
  | S fuel =>
      if elapsed st <? max_wait then
        let t := get env (requests st) in
        let st := {| requests := S (requests st);
                     retry_count := retry_count st;
                     elapsed := elapsed st + latency env (requests st) |} in
        match poll_body task_id poll_interval st t with
        | Continue st => poll_loop env task_id max_wait poll_interval fuel st
        | Stop o st => Some (o, st)
        end
      else Some (Raise (PollTimeout max_wait), st)
  end.

(** [vendor poll_url] is what polling [poll_url] will see. *)
Definition _poll_prediction (vendor : string → PollEnv) (task_id poll_url : string)
    (max_wait poll_interval : Z) (fuel : nat)
    : option (Outcome GenerationResult * LoopState) :=
  poll_loop (vendor poll_url) task_id max_wait poll_interval fuel loop_entry.

(** *** Image generation *)

Definition _map_aspect_ratio_flux (aspect_ratio : string) : string :=
  let mapping :=
    [ ("9:16", "9:16"); ("16:9", "16:9"); ("1:1", "1:1");
      ("2:3", "2:3"); ("3:2", "3:2"); ("4:5", "4:5") ] in
  default "9:16" (dict_get mapping aspect_ratio).

(** The adapter's state is the module-level [_task_poll_urls] dictionary;
    a call returns its outcome and the dictionary it leaves behind. *)
Definition submit_image (post : Post) (prompt aspect_ratio resolution model : string)
    (_task_poll_urls : gmap string string) : Outcome string * gmap string string :=
  match dict_get _IMAGE_MODELS model with
  | None => (Raise (UnsupportedModel Replicate Image model (keys _IMAGE_MODELS)),
             _task_poll_urls)
  | Some model_path =>
      let output_quality :=
        if String.eqb resolution "2K" || String.eqb resolution "4K" then 90 else 80 in
      let input_payload :=
       ([ ("prompt", JStr prompt);
          ("aspect_ratio", JStr (_map_aspect_ratio_flux aspect_ratio));
          ("num_outputs", JNum 1);
          ("output_format", JStr "jpg");
          ("output_quality", JNum output_quality) ]
        ++ (if String.eqb model "flux-dev" then [("guidance", JReal (7 # 2))] else []))%list in
      match _submit_prediction post model_path (JDict input_payload) with
      | Raise e => (Raise e, _task_poll_urls)
      | Return task_info => record_task task_info _task_poll_urls
      end
  end.

Definition poll_image (vendor : string → PollEnv) (_task_poll_urls : gmap string string)
    (task_id : string) (max_wait poll_interval : Z) (fuel : nat)
    : option (Outcome GenerationResult * LoopState) :=
  match _task_poll_urls !! task_id with
  | Some poll_url =>
      if nonempty poll_url
      then _poll_prediction vendor task_id poll_url max_wait poll_interval fuel
      else Some (Raise (NoPollUrlStored Replicate task_id Image), loop_entry)
  | None => Some (Raise (NoPollUrlStored Replicate task_id Image), loop_entry)
  end.

(** *** Video generation *)

(** [if image_url: payload[key] = image_url] *)
Definition with_image (key : string) (image_url : option string)
    : list (string * json) :=
  match image_url with
  | Some u => if nonempty u then [(key, JStr u)] else []
  | None => []
  end.

Definition _build_video_payload (prompt : string) (image_url : option string)
    (model : string) (duration : IntArg) (aspect_ratio : string) : Outcome json :=
  if String.eqb model "ltx-video" then
    d ← py_int duration;
    Return (JDict ([("prompt", JStr prompt); ("num_frames", JNum (Z.min (d * 24) 257))]
                   ++ with_image "image" image_url)%list)
  else if String.eqb model "wan-2.1" then
    d ← py_int duration;
    Return (JDict ([("prompt", JStr prompt); ("num_frames", JNum (Z.min (d * 16) 81))]
                   ++ with_image "image" image_url)%list)
  else if String.eqb model "cogvideox" then
    d ← py_int duration;
    Return (JDict ([("prompt", JStr prompt); ("num_frames", JNum (Z.min (d * 8) 49))]
                   ++ with_image "image" image_url)%list)
  else if String.eqb model "minimax-video" then
    Return (JDict ([("prompt", JStr prompt)]
                   ++ with_image "first_frame_image" image_url)%list)
  else Raise (NoPayloadBuilder Replicate model).

Definition submit_video (post : Post) (prompt : string) (image_url : option string)
    (model : string) (duration : IntArg) (aspect_ratio : string)
    (_task_poll_urls : gmap string string) : Outcome string * gmap string string :=
  match dict_get _VIDEO_MODELS model with
  | None => (Raise (UnsupportedModel Replicate Video model (keys _VIDEO_MODELS)),
             _task_poll_urls)
  | Some model_path =>
      match (input_payload ← _build_video_payload prompt image_url model duration aspect_ratio;
             _submit_prediction post model_path input_payload) with
      | Raise e => (Raise e, _task_poll_urls)
      | Return task_info => record_task task_info _task_poll_urls
      end
  end.

Definition poll_video (vendor : string → PollEnv) (_task_poll_urls : gmap string string)
    (task_id : string) (max_wait poll_interval : Z) (fuel : nat)
    : option (Outcome GenerationResult * LoopState) :=
  match _task_poll_urls !! task_id with
  | Some poll_url =>
      if nonempty poll_url
      then _poll_prediction vendor task_id poll_url max_wait poll_interval fuel
      else Some (Raise (NoPollUrlStored Replicate task_id Video), loop_entry)
  | None => Some (Raise (NoPollUrlStored Replicate task_id Video), loop_entry)
  end.

(** *** Parallel polling *)

Definition _poll_one (vendor : string → PollEnv) (_task_poll_urls : gmap string string)
    (max_wait poll_interval : Z) (fuel : nat) (tid : string)
    : option (Outcome GenerationResult) :=
  match _task_poll_urls !! tid with
  | Some poll_url =>
      if nonempty poll_url
      then fst <$> _poll_prediction vendor tid poll_url max_wait poll_interval fuel
      else Some (Raise (NoPollUrl tid))
  | None => Some (Raise (NoPollUrl tid))
  end.

(** [vendor i] is the vendor as seen by the [i]-th future; [order] is the
    order in which [as_completed] yields the futures. *)
Definition poll_tasks_parallel (vendor : nat → string → PollEnv)
    (_task_poll_urls : gmap string string) (order : list nat)
    (task_ids : list string) (max_wait poll_interval : Z) (fuel : nat)
    : option (gmap string GenerationResult) :=
  poll_many (λ i, _poll_one (vendor i) _task_poll_urls max_wait poll_interval fuel)
            order task_ids.

(** *** Sessions

    The module is imported once, with an empty [_task_poll_urls]; after that
    the dictionary is written by [submit_image] and [submit_video] only. *)

Inductive Call : Type :=
  | call_submit_image (post : Post) (prompt aspect_ratio resolution model : string)
  | call_submit_video (post : Post) (prompt : string) (image_url : option string)
      (model : string) (duration : IntArg) (aspect_ratio : string).

Definition run_call (c : Call) (_task_poll_urls : gmap string string)
    : Outcome string * gmap string string :=
  match c with
  | call_submit_image post prompt aspect_ratio resolution model =>
      submit_image post prompt aspect_ratio resolution model _task_poll_urls
  | call_submit_video post prompt image_url model duration aspect_ratio =>
      submit_video post prompt image_url model duration aspect_ratio _task_poll_urls
  end.

(** Runs the calls in order, threading the dictionary and collecting the
    task ids that the calls returned. *)
Fixpoint session (calls : list Call) (_task_poll_urls : gmap string string)
    (issued : list string) : gmap string string * list string :=
  match calls with
  | [] => (_task_poll_urls, issued)
  | c :: calls =>
      match run_call c _task_poll_urls with
      | (Return task_id, urls) => session calls urls (issued ++ [task_id])
      | (Raise _, urls) => session calls urls issued
      end
  end.

End replicate.

(** ** [tools/providers/wavespeed.py] *)

Module wavespeed.

Definition image_IS_SYNC : bool := false.
Definition video_IS_SYNC : bool := false.

Definition _IMAGE_MODELS : list (string * string) :=
  [ ("gpt-image-1.5", "openai/gpt-image-1.5/edit") ].

Definition _VIDEO_MODELS : list (string * string) :=
  [ ("kling-3.0", "kwaivgi/kling-v3.0-pro/image-to-video");
    ("kling-3.0-std", "kwaivgi/kling-v3.0-std/image-to-video");
    ("sora-2", "openai/sora-2/image-to-video");
    ("sora-2-pro", "openai/sora-2/image-to-video-pro") ].

(** [submit_wavespeed_task] and [poll_wavespeed_task] live in [tools/utils],
    outside these modules.  Every function below that calls one of them
    takes, under the helper's name, what the helper does at that call:
    [submit_wavespeed_task model_id payload] raises or returns a
    [{"task_id", "poll_url"}] dictionary, here a pair;
    [poll_wavespeed_task task_id poll_url max_wait poll_interval quiet]
    raises, returns a result, or ([None]) never returns. *)
Definition SubmitHelper : Type := string → json → Outcome (string * string).
Definition PollHelper : Type :=
  string → string → Z → Z → bool → option (Outcome GenerationResult).

Definition _map_image_size (aspect_ratio : string) : string :=
  default "auto"
    (dict_get [ ("9:16", "1024*1536"); ("2:3", "1024*1536");
                ("16:9", "1536*1024"); ("3:2", "1536*1024");
                ("1:1", "1024*1024") ] aspect_ratio).

Definition _map_image_quality (resolution : string) : string :=
  if String.eqb resolution "2K" || String.eqb resolution "4K" then "high" else "medium".

Definition submit_image (submit_wavespeed_task : SubmitHelper)
    (prompt : string) (reference_urls : option (list string))
    (aspect_ratio resolution model : string)
    (_task_poll_urls : gmap string string) : Outcome string * gmap string string :=
  match dict_get _IMAGE_MODELS model with
  | None => (Raise (UnsupportedModel WaveSpeed Image model (keys _IMAGE_MODELS)),
             _task_poll_urls)
  | Some model_id =>
      let payload :=
       ([ ("prompt", JStr prompt);
          ("size", JStr (_map_image_size aspect_ratio));
          ("quality", JStr (_map_image_quality resolution));
          ("input_fidelity", JStr "high");
          ("output_format", JStr "jpeg") ]
        ++ match reference_urls with
           | Some (u :: us) => [("images", JList (JStr <$> (u :: us)))]
           | _ => []
           end)%list in
      match submit_wavespeed_task model_id (JDict payload) with
      | Raise e => (Raise e, _task_poll_urls)
      | Return (task_id, poll_url) =>
          (Return task_id, <[task_id := poll_url]> _task_poll_urls)
      end
  end.

Definition poll_image (poll_wavespeed_task : PollHelper)
    (_task_poll_urls : gmap string string) (task_id : string)
    (max_wait poll_interval : Z) (quiet : bool) : option (Outcome GenerationResult) :=
  match _task_poll_urls !! task_id with
  | Some poll_url =>
      if nonempty poll_url
      then poll_wavespeed_task task_id poll_url max_wait poll_interval quiet
      else Some (Raise (NoPollUrlStored WaveSpeed task_id Image))
  | None => Some (Raise (NoPollUrlStored WaveSpeed task_id Image))
  end.

(** [if image_url: payload["image"] = image_url] *)
Definition with_image (image_url : option string) : list (string * json) :=
  match image_url with
  | Some u => if nonempty u then [("image", JStr u)] else []
  | None => []
  end.

(** The payload that [submit_video] builds in its [if]/[elif]/[else]. *)
Definition video_payload (prompt : string) (image_url : option string)
    (model : string) (duration : IntArg) : Outcome json :=
  if String.prefix "kling" model then
    d ← py_int duration;
    Return (JDict ([ ("prompt", JStr prompt); ("duration", JNum d);
                     ("cfg_scale", JReal (1 # 2)); ("sound", JBool true) ]
                   ++ with_image image_url)%list)
  else if String.prefix "sora" model then
    dur_int ← py_int duration;
    let ws_duration :=
      if dur_int <=? 5 then 4 else if dur_int <=? 10 then 8 else 12 in
    Return (JDict ([ ("prompt", JStr prompt); ("duration", JNum ws_duration) ]
                   ++ (if String.eqb model "sora-2-pro"
                       then [("resolution", JStr "1080p")] else [])
                   ++ with_image image_url)%list)
  else Raise (NoPayloadBuilder WaveSpeed model).

Definition submit_video (submit_wavespeed_task : SubmitHelper)
    (prompt : string) (image_url : option string) (model : string)
    (duration : IntArg) (aspect_ratio mode : string)
    (_task_poll_urls : gmap string string) : Outcome string * gmap string string :=
  let model_id :=
    if String.eqb model "kling-3.0" && String.eqb mode "std"
    then dict_get _VIDEO_MODELS "kling-3.0-std"
    else dict_get _VIDEO_MODELS model in
  match model_id with
  | None => (Raise (UnsupportedModel WaveSpeed Video model (keys _VIDEO_MODELS)),
             _task_poll_urls)
  | Some model_id =>
      match (payload ← video_payload prompt image_url model duration;
             submit_wavespeed_task model_id payload) with
      | Raise e => (Raise e, _task_poll_urls)
      | Return (task_id, poll_url) =>
          (Return task_id, <[task_id := poll_url]> _task_poll_urls)
      end
  end.

Definition poll_video (poll_wavespeed_task : PollHelper)
    (_task_poll_urls : gmap string string) (task_id : string)
    (max_wait poll_interval : Z) (quiet : bool) : option (Outcome GenerationResult) :=
  match _task_poll_urls !! task_id with
  | Some poll_url =>
      if nonempty poll_url
      then poll_wavespeed_task task_id poll_url max_wait poll_interval quiet
      else Some (Raise (NoPollUrlStored WaveSpeed task_id Video))
  | None => Some (Raise (NoPollUrlStored WaveSpeed task_id Video))
  end.

(** [poll_wavespeed_task i] is the helper as the [i]-th future runs it. *)
Definition poll_tasks_parallel (poll_wavespeed_task : nat → PollHelper)
    (_task_poll_urls : gmap string string) (order : list nat)
    (task_ids : list string) (max_wait poll_interval : Z)
    : option (gmap string GenerationResult) :=
  poll_many (λ i tid, poll_video (poll_wavespeed_task i) _task_poll_urls tid
                                 max_wait poll_interval true)
            order task_ids.

End wavespeed.

(** ** [is_sync], [tools/providers/__init__.py]

    [getattr(provider_module, f"{generation_type}_IS_SYNC", False)].  The
    Replicate and WaveSpeed modules define [image_IS_SYNC] and
    [video_IS_SYNC] and no other name ending in [_IS_SYNC]; the attributes
    of the kie and google modules, which are outside these files, are given
    by [other_flags]. *)
Definition sync_attr (other_flags : providers.ProviderModule → string → option bool)
    (provider_module : providers.ProviderModule) (generation_type : string)
    : option bool :=
  match provider_module with
  | providers.replicate =>
      if String.eqb generation_type "image" then Some replicate.image_IS_SYNC
      else if String.eqb generation_type "video" then Some replicate.video_IS_SYNC
      else None
  | providers.wavespeed =>
      if String.eqb generation_type "image" then Some wavespeed.image_IS_SYNC
      else if String.eqb generation_type "video" then Some wavespeed.video_IS_SYNC
      else None
  | m => other_flags m generation_type
  end.

Definition is_sync (other_flags : providers.ProviderModule → string → option bool)
    (provider_module : providers.ProviderModule) (generation_type : string) : bool :=
  default false (sync_attr other_flags provider_module generation_type).

(** ** Vocabulary of the statements *)

(** An entry of a catalog whose default provider is one of its providers. *)
Definition default_in_providers (entry : string * providers.ModelConfig) : Prop :=
  is_Some (dict_get (providers.provider_map entry.2) (providers.default_provider entry.2)).

(** A GET that came back with a status code other than 200: what the loop
    counts in [retry_count]. *)
Definition is_failure (t : Transport Response) : bool :=
  match t with
  | Responded response => negb (status_code response =? 200)
  | ConnectionFailed _ => false
  end.

(** The number of consecutive failed GETs that immediately precede the
    [k]-th GET. *)
Fixpoint trailing_failures (env : PollEnv) (k : nat) : nat :=
  match k with
  | O => O
  | S k => if is_failure (get env k) then S (trailing_failures env k) else O
  end.

(** A 200 response whose JSON object carries a status that is neither
    "succeeded" nor "failed" nor "canceled" (for instance "processing"). *)
Definition pending (t : Transport Response) : bool :=
  match t with
  | Responded response =>
      (status_code response =? 200) &&
      match body response with
      | Some (JDict data) =>
          let status := default (JStr "unknown") (dict_get data "status") in
          negb (str_eq status "succeeded") &&
          negb (str_eq status "failed" || str_eq status "canceled")
      | _ => false
      end
  | ConnectionFailed _ => false
  end.

(** Iterations within which a loop with a positive [poll_interval] has
    left, whatever the vendor answers. *)
Definition poll_fuel (max_wait poll_interval : Z) : nat :=
  S (Z.to_nat (max_wait / poll_interval + 1)).

(** What [poll_tasks_parallel] owes its caller, for workers [worker i] (the
    [_poll_one] of the [i]-th future): the result dictionary has exactly
    the input task ids as keys; every worker ran to completion; every
    stored result is what one of that task id's workers produced, an
    exception [e] having become [Error tid e]; and for a task id that
    occurs once in the input that worker's outcome is the one stored. *)
Definition fan_out_isolated (worker : nat → string → option (Outcome GenerationResult))
    (task_ids : list string) (results : gmap string GenerationResult) : Prop :=
  dom results = list_to_set task_ids ∧
  (∀ i tid, task_ids !! i = Some tid → is_Some (worker i tid)) ∧
  (∀ tid r, results !! tid = Some r →
     ∃ i o, task_ids !! i = Some tid ∧ worker i tid = Some o ∧ r = result_of tid o) ∧
  (∀ i tid, task_ids !! i = Some tid →
     (∀ j, task_ids !! j = Some tid → j = i) →
     (∀ e, worker i tid = Some (Raise e) → results !! tid = Some (Error tid e)) ∧
     (∀ r, worker i tid = Some (Return r) → results !! tid = Some r)).

(** The dictionary holds a non-empty poll URL for exactly the task ids in
    [issued]. *)
Definition records (_task_poll_urls : gmap string string) (issued : list string) : Prop :=
  ∀ tid,
    (tid ∈ issued → ∃ url, _task_poll_urls !! tid = Some url ∧ url ≠ "") ∧
    (tid ∉ issued → _task_poll_urls !! tid = None).

(** The name under which the registry imports an adapter module. *)
Definition module_name (m : providers.ProviderModule) : string :=
  match m with
  | providers.kie => "kie"
  | providers.google => "google"
  | providers.wavespeed => "wavespeed"
  | providers.replicate => "replicate"
  end.

(** Every provider name of a catalog entry names the module stored under it. *)
Definition names_agree (entry : string * providers.ModelConfig) : Prop :=
  Forall (λ km : string * providers.ProviderModule, km.1 = module_name km.2)
         (providers.provider_map entry.2).

(** The adapter tables that serve the entry's model, for the two adapters
    of these files. *)
Definition adapters_serve (replicate_models wavespeed_models : list (string * string))
    (entry : string * providers.ModelConfig) : Prop :=
  Forall (λ km : string * providers.ProviderModule,
            (km.2 = providers.replicate → is_Some (dict_get replicate_models entry.1)) ∧
            (km.2 = providers.wavespeed → is_Some (dict_get wavespeed_models entry.1)))
         (providers.provider_map entry.2).

(** ** Sample vendors, used to instantiate the statements *)

(** A vendor that always answers "processing", instantly. *)
Definition always_processing : PollEnv :=
  {| get := λ _, Responded {| status_code := 200; text := "";
                              body := Some (JDict [("status", JStr "processing")]) |};
     latency := λ _, 0 |}.

(** A vendor whose poll endpoint is down: every GET is answered 503. *)
Definition always_unavailable : PollEnv :=
  {| get := λ _, Responded {| status_code := 503; text := "unavailable"; body := None |};
     latency := λ _, 0 |}.

(** Ten failures, one pending answer, ten more failures, then success: the
    pending answer hands the loop a fresh budget of retries. *)
Definition flaky_vendor : PollEnv :=
  {| get := λ k,
       if (k =? 10)%nat then
         Responded {| status_code := 200; text := "";
                      body := Some (JDict [("status", JStr "processing")]) |}
       else if (k <? 21)%nat then
         Responded {| status_code := 502; text := "bad gateway"; body := None |}
       else
         Responded {| status_code := 200; text := "";
                      body := Some (JDict [("status", JStr "succeeded");
                                           ("output", JStr "https://cdn/v.mp4")]) |};
     latency := λ _, 0 |}.

Definition succeeded_with (output : json) : PollEnv :=
  {| get := λ _, Responded {| status_code := 200; text := "";
                              body := Some (JDict [("status", JStr "succeeded");
                                                   ("output", output)]) |};
     latency := λ _, 0 |}.

(** A vendor that accepts every submission as prediction "p1". *)
Definition accepts_as_p1 : replicate.Post :=
  λ _ _, Responded {| post_status_code := 201; post_text := "";
                      post_body := Some (BodyObject (IdStr "p1")
                                           (UrlsObject (Some "https://api/p1"))) |}.

(** Three submitted tasks; the vendor drops the connection whenever the
    second one is polled and reports the other two as succeeded. *)
Definition three_urls : gmap string string :=
  <["a" := "https://api/a"]> (<["b" := "https://api/b"]> (<["c" := "https://api/c"]> ∅)).

Definition drops_b (poll_url : string) : PollEnv :=
  if String.eqb poll_url "https://api/b"
  then {| get := λ _, ConnectionFailed "connection reset"; latency := λ _, 0 |}
  else succeeded_with (JList [JStr poll_url]).

(** * Properties *)

(** ** Dictionaries *)

Lemma dict_get_Some_elem {V : Type} (d : list (string * V)) (k : string) (v : V) :
  dict_get d k = Some v → (k, v) ∈ d.
Proof.
  induction d as [|[k' v'] d IH]; simpl; [discriminate|].
  destruct (String.eqb k' k) eqn:E.
  - apply String.eqb_eq in E. intros [= ->]. subst. left.
  - intros H. right. auto.
Qed.

Lemma dict_get_None_keys {V : Type} (d : list (string * V)) (k : string) :
  dict_get d k = None ↔ k ∉ keys d.
Proof.
  unfold keys. induction d as [|[k' v'] d IH]; simpl.
  - split; [intros _; apply not_elem_of_nil | done].
  - destruct (String.eqb k' k) eqn:E.
    + apply String.eqb_eq in E. subst. split; [discriminate|].
      intros H. exfalso. apply H. left.
    + apply String.eqb_neq in E. rewrite IH, not_elem_of_cons.
      split; [intros ?; split; [congruence | done] | by intros [_ ?]].
Qed.

Lemma nonempty_true (s : string) : nonempty s = true ↔ s ≠ "".
Proof.
  unfold nonempty. destruct (String.eqb s "") eqn:E; simpl.
  - apply String.eqb_eq in E. split; [discriminate | congruence].
  - apply String.eqb_neq in E. split; [auto | reflexivity].
Qed.

(** ** The registry *)

Section registry.
Import providers.

Lemma override_or_None (dflt : string) : override_or None dflt = dflt.
Proof. reflexivity. Qed.

Lemma override_or_empty (dflt : string) : override_or (Some "") dflt = dflt.
Proof. reflexivity. Qed.

Lemma override_or_nonempty (p dflt : string) : p ≠ "" → override_or (Some p) dflt = p.
Proof.
  intros Hp. unfold override_or, truthy_str.
  apply nonempty_true in Hp. unfold nonempty in Hp. by rewrite Hp.
Qed.

Lemma image_defaults_registered : Forall default_in_providers IMAGE_PROVIDERS.
Proof. repeat constructor; unfold default_in_providers; simpl; eauto. Qed.

Lemma video_defaults_registered : Forall default_in_providers VIDEO_PROVIDERS.
Proof. repeat constructor; unfold default_in_providers; simpl; eauto. Qed.

Lemma get_provider_default kind catalog model cfg :
  Forall default_in_providers catalog →
  dict_get catalog model = Some cfg →
  ∃ provider,
    dict_get (provider_map cfg) (default_provider cfg) = Some provider ∧
    get_provider kind catalog model None = Return (provider, default_provider cfg).
Proof.
  intros Hall Hget.
  apply dict_get_Some_elem in Hget as Hin.
  rewrite Forall_forall in Hall. destruct (Hall _ Hin) as [provider Hp]. simpl in Hp.
  exists provider. split; [done|].
  unfold get_provider. rewrite Hget. simpl. by rewrite Hp.
Qed.

Lemma get_provider_unknown_model kind catalog model override :
  dict_get catalog model = None →
  get_provider kind catalog model override = Raise (UnknownModel kind model (keys catalog)).
Proof. intros H. unfold get_provider. by rewrite H. Qed.

Lemma get_provider_unavailable kind catalog model cfg p :
  dict_get catalog model = Some cfg →
  p ≠ "" →
  dict_get (provider_map cfg) p = None →
  get_provider kind catalog model (Some p)
  = Raise (ProviderNotAvailable p model (keys (provider_map cfg))).
Proof.
  intros Hm Hp Hnone. unfold get_provider. rewrite Hm.
  rewrite (override_or_nonempty _ _ Hp). by rewrite Hnone.
Qed.

Lemma get_provider_empty_override kind catalog model :
  get_provider kind catalog model (Some "") = get_provider kind catalog model None.
Proof. reflexivity. Qed.

End registry.

(** C5. For every model of the image catalog, and for every model of the
    video catalog, resolving with no override returns the module stored
    under the model's default provider name together with that name; in
    particular the default name is a key of the model's providers map. *)
Theorem registry_default_resolution (model : string) (cfg : providers.ModelConfig) :
  (dict_get providers.IMAGE_PROVIDERS model = Some cfg →
   ∃ provider,
     dict_get (providers.provider_map cfg) (providers.default_provider cfg) = Some provider ∧
     providers.get_image_provider model None
     = Return (provider, providers.default_provider cfg)) ∧
  (dict_get providers.VIDEO_PROVIDERS model = Some cfg →
   ∃ provider,
     dict_get (providers.provider_map cfg) (providers.default_provider cfg) = Some provider ∧
     providers.get_video_provider model None
     = Return (provider, providers.default_provider cfg)).
Proof.
  split; intros H.
  - exact (get_provider_default Image _ _ _ image_defaults_registered H).
  - exact (get_provider_default Video _ _ _ video_defaults_registered H).
Qed.

Lemma registry_default_resolution_witness :
  ∃ provider,
    dict_get (providers.provider_map
                {| providers.default_provider := "wavespeed";
                   providers.provider_map :=
                     [("kie", providers.kie); ("wavespeed", providers.wavespeed)] |})
             "wavespeed" = Some provider ∧
    providers.get_video_provider "kling-3.0" None = Return (provider, "wavespeed").
Proof.
  exact (proj2 (registry_default_resolution "kling-3.0"
                  {| providers.default_provider := "wavespeed";
                     providers.provider_map :=
                       [("kie", providers.kie); ("wavespeed", providers.wavespeed)] |})
               eq_refl).
Defined.

(** C6, as the code has it.  A model name that is not a key of the catalog
    is rejected with an error naming the model and listing the catalog's
    keys, whatever the override.  For a model of the catalog, an override
    that is a non-empty string and not a key of the model's providers map is
    rejected with an error naming the requested provider and the model and
    listing the keys of that map. *)
Theorem registry_rejects_misuse (model : string) (provider_override : option string) :
  (dict_get providers.IMAGE_PROVIDERS model = None →
   providers.get_image_provider model provider_override
   = Raise (UnknownModel Image model (keys providers.IMAGE_PROVIDERS))) ∧
  (dict_get providers.VIDEO_PROVIDERS model = None →
   providers.get_video_provider model provider_override
   = Raise (UnknownModel Video model (keys providers.VIDEO_PROVIDERS))) ∧
  (∀ cfg p,
     dict_get providers.IMAGE_PROVIDERS model = Some cfg →
     provider_override = Some p → p ≠ "" →
     p ∉ keys (providers.provider_map cfg) →
     providers.get_image_provider model provider_override
     = Raise (ProviderNotAvailable p model (keys (providers.provider_map cfg)))) ∧
  (∀ cfg p,
     dict_get providers.VIDEO_PROVIDERS model = Some cfg →
     provider_override = Some p → p ≠ "" →
     p ∉ keys (providers.provider_map cfg) →
     providers.get_video_provider model provider_override
     = Raise (ProviderNotAvailable p model (keys (providers.provider_map cfg)))).
Proof.
  repeat split.
  - apply get_provider_unknown_model.
  - apply get_provider_unknown_model.
  - intros cfg p Hm -> Hp Hk. apply get_provider_unavailable; [done..|].
    by apply dict_get_None_keys.
  - intros cfg p Hm -> Hp Hk. apply get_provider_unavailable; [done..|].
    by apply dict_get_None_keys.
Qed.

Lemma registry_rejects_misuse_witness :
  providers.get_image_provider "dall-e" (Some "kie")
  = Raise (UnknownModel Image "dall-e"
             ["nano-banana"; "nano-banana-pro"; "gpt-image-1.5"; "flux-schnell"; "flux-dev"]) ∧
  providers.get_video_provider "sora-2" (Some "kie")
  = Raise (ProviderNotAvailable "kie" "sora-2" ["wavespeed"]).
Proof.
  split.
  - exact (proj1 (registry_rejects_misuse "dall-e" (Some "kie")) eq_refl).
  - refine (proj2 (proj2 (proj2 (registry_rejects_misuse "sora-2" (Some "kie"))))
             {| providers.default_provider := "wavespeed";
                providers.provider_map := [("wavespeed", providers.wavespeed)] |}
             "kie" eq_refl eq_refl _ _).
    + discriminate.
    + simpl. intros H. apply list_elem_of_singleton in H. discriminate.
Defined.

(** C6 as stated fails for the empty override: [""] is not a key of the
    providers map of ["flux-dev"], yet the call returns the default
    provider instead of raising. *)
Lemma registry_empty_override_not_rejected :
  (∃ cfg, dict_get providers.IMAGE_PROVIDERS "flux-dev" = Some cfg ∧
          "" ∉ keys (providers.provider_map cfg)) ∧
  providers.get_image_provider "flux-dev" (Some "")
  = Return (providers.replicate, "replicate") ∧
  ¬ ∃ e, providers.get_image_provider "flux-dev" (Some "") = Raise e.
Proof.
  split; [|split].
  - eexists. split; [reflexivity|]. simpl.
    intros H. apply list_elem_of_singleton in H. discriminate.
  - reflexivity.
  - intros [e H]. discriminate.
Qed.

(** C9. An empty-string override behaves exactly as no override, for every
    model name; for every model of either catalog the call therefore
    returns the model's default provider rather than an error. *)
Theorem registry_empty_override_is_default (model : string) :
  providers.get_image_provider model (Some "") = providers.get_image_provider model None ∧
  providers.get_video_provider model (Some "") = providers.get_video_provider model None ∧
  Forall (λ entry, ∃ provider,
            providers.get_image_provider entry.1 (Some "")
            = Return (provider, providers.default_provider entry.2))
         providers.IMAGE_PROVIDERS ∧
  Forall (λ entry, ∃ provider,
            providers.get_video_provider entry.1 (Some "")
            = Return (provider, providers.default_provider entry.2))
         providers.VIDEO_PROVIDERS.
Proof.
  split; [reflexivity|]. split; [reflexivity|].
  split; repeat constructor; simpl; eexists; reflexivity.
Qed.

(** ** The single-task poll loop *)

Section poll_loop.
Import replicate.

Variables (env : PollEnv) (task_id : string) (max_wait poll_interval : Z).

Ltac body_cases :=
  unfold poll_body, sleep in *;
  repeat (case_match; simplify_eq/=; try done).

(** Falling through to the loop test always goes through [sleep]. *)
Lemma poll_body_continue st t st' :
  poll_body task_id poll_interval st t = Continue st' →
  0 ≤ poll_interval ∧
  requests st' = requests st ∧
  elapsed st' = elapsed st + poll_interval ∧
  ((is_failure t = true ∧ retry_count st' = retry_count st + 1 ∧ retry_count st' ≤ 10)
   ∨ (is_failure t = false ∧ retry_count st' = 0)).
Proof.
  intros H. unfold is_failure.
  body_cases; repeat split; try lia; auto; left; repeat split; auto; lia.
Qed.

Lemma poll_body_failed_over st response :
  status_code response ≠ 200 →
  10 < retry_count st + 1 →
  poll_body task_id poll_interval st (Responded response)
  = Stop (Raise (PollFailedAfterRetries (text response)))
         {| requests := requests st; retry_count := retry_count st + 1;
            elapsed := elapsed st |}.
Proof.
  intros Hc Hr. unfold poll_body.
  apply Z.eqb_neq in Hc. rewrite Hc. simpl.
  apply Z.ltb_lt in Hr. by rewrite Hr.
Qed.

Lemma poll_body_failed_retry st response :
  status_code response ≠ 200 →
  retry_count st + 1 ≤ 10 →
  0 ≤ poll_interval →
  poll_body task_id poll_interval st (Responded response)
  = Continue {| requests := requests st; retry_count := retry_count st + 1;
                elapsed := elapsed st + poll_interval |}.
Proof.
  intros Hc Hr Hp. unfold poll_body, sleep.
  apply Z.eqb_neq in Hc. rewrite Hc. simpl.
  apply Z.ltb_ge in Hr. rewrite Hr.
  apply Z.ltb_ge in Hp. by rewrite Hp.
Qed.

Lemma poll_body_pending st t :
  pending t = true →
  0 ≤ poll_interval →
  poll_body task_id poll_interval st t
  = Continue {| requests := requests st; retry_count := 0;
                elapsed := elapsed st + poll_interval |}.
Proof.
  intros Hpend Hp. apply Z.ltb_ge in Hp.
  unfold pending in Hpend. unfold poll_body, sleep.
  repeat (case_match; simplify_eq/=; try done);
    repeat match goal with
           | H : _ && _ = true |- _ => apply andb_true_iff in H as [? ?]
           | H : negb _ = true |- _ => apply negb_true_iff in H
           end; congruence.
Qed.

(** More fuel does not change a result. *)
Lemma poll_loop_mono fuel fuel' st r :
  poll_loop env task_id max_wait poll_interval fuel st = Some r →
  (fuel ≤ fuel')%nat →
  poll_loop env task_id max_wait poll_interval fuel' st = Some r.
Proof.
  revert fuel' st. induction fuel as [|fuel IH]; intros fuel' st H Hle; [done|].
  destruct fuel' as [|fuel']; [lia|]. simpl in *.
  repeat case_match; simplify_eq; try done.
  apply IH; [done | lia].
Qed.

(** With a positive interval and GETs that take no negative time, the loop
    leaves within [n + 1] iterations once [n] sleeps cover what is left of
    [max_wait]. *)
Lemma poll_loop_terminates n st :
  0 < poll_interval →
  (∀ k, 0 ≤ latency env k) →
  max_wait - elapsed st ≤ Z.of_nat n * poll_interval →
  is_Some (poll_loop env task_id max_wait poll_interval (S n) st).
Proof.
  intros Hp Hlat. revert st. induction n as [|n IH]; intros st Hn.
  - simpl. destruct (elapsed st <? max_wait) eqn:E; [|eauto].
    apply Z.ltb_lt in E. lia.
  - cbn [poll_loop]. destruct (elapsed st <? max_wait) eqn:E; [|eauto].
    destruct (poll_body _ _ _ _) as [st'|o st'] eqn:Hb; [|eauto].
    apply poll_body_continue in Hb as (_ & _ & He & _). simpl in He.
    apply IH. specialize (Hlat (requests st)). lia.
Qed.

Lemma poll_fuel_covers :
  0 < poll_interval →
  max_wait - elapsed loop_entry
  ≤ Z.of_nat (Z.to_nat (max_wait / poll_interval + 1)) * poll_interval.
Proof.
  intros Hp. simpl.
  destruct (Z.le_gt_cases 0 max_wait) as [Hm|Hm].
  - assert (0 ≤ max_wait / poll_interval) by (apply Z.div_pos; lia).
    rewrite Z2Nat.id by lia.
    pose proof (Z.mul_succ_div_gt max_wait poll_interval Hp). lia.
  - assert (0 ≤ Z.of_nat (Z.to_nat (max_wait / poll_interval + 1)) * poll_interval)
      by (apply Z.mul_nonneg_nonneg; lia).
    lia.
Qed.

(** While every answer is pending the loop can only leave by the timeout. *)
Lemma poll_loop_pending fuel st o st' :
  0 ≤ poll_interval →
  (∀ k, pending (get env k) = true) →
  poll_loop env task_id max_wait poll_interval fuel st = Some (o, st') →
  o = Raise (PollTimeout max_wait) ∧ max_wait ≤ elapsed st' ∧
  ((∀ k, latency env k = 0) →
   elapsed st = Z.of_nat (requests st) * poll_interval →
   elapsed st < max_wait + poll_interval →
   elapsed st' = Z.of_nat (requests st') * poll_interval ∧
   elapsed st' < max_wait + poll_interval).
Proof.
  intros Hp Hpend. revert st. induction fuel as [|fuel IH]; intros st H; [done|].
  simpl in H. destruct (elapsed st <? max_wait) eqn:E.
  - rewrite (poll_body_pending _ _ (Hpend _) Hp) in H. simpl in H.
    apply IH in H as (-> & Hge & Hz). apply Z.ltb_lt in E.
    split; [done|]. split; [done|]. intros Hlat Hel Hlt.
    apply Hz; [done|..]; simpl; rewrite Hlat; lia.
  - simplify_eq. apply Z.ltb_ge in E. repeat split; auto.
Qed.

Lemma trailing_failures_run n j :
  (n - trailing_failures env n ≤ j < n)%nat →
  is_failure (get env j) = true.
Proof.
  induction n as [|n IH]; simpl; [lia|].
  destruct (is_failure (get env n)) eqn:E; [|lia].
  intros Hj. destruct (decide (j = n)) as [->|Hne]; [done|].
  apply IH. lia.
Qed.

Lemma trailing_failures_le n : (trailing_failures env n ≤ n)%nat.
Proof.
  induction n as [|n IH]; simpl; [lia|]. case_match; lia.
Qed.

(** At the loop test [retry_count] is the number of failed GETs in a row
    just made; the loop gives up on the eleventh. *)
Lemma poll_loop_retries fuel st msg st' :
  retry_count st = Z.of_nat (trailing_failures env (requests st)) →
  retry_count st ≤ 10 →
  poll_loop env task_id max_wait poll_interval fuel st
  = Some (Raise (PollFailedAfterRetries msg), st') →
  trailing_failures env (requests st') = 11%nat ∧
  ∃ response, get env (pred (requests st')) = Responded response ∧
              status_code response ≠ 200 ∧ text response = msg.
Proof.
  revert st. induction fuel as [|fuel IH]; intros st Hinv Hle H; [done|].
  simpl in H. destruct (elapsed st <? max_wait) eqn:E; [|by simplify_eq].
  destruct (poll_body _ _ _ _) as [st1|o st1] eqn:Hb.
  - apply poll_body_continue in Hb as (_ & Hreq & _ & Hretry). simpl in *.
    apply IH in H; [done| |].
    + rewrite Hreq. simpl.
      destruct Hretry as [(-> & -> & _)|(-> & ->)]; lia.
    + destruct Hretry as [(_ & _ & ?)|(_ & ->)]; lia.
  - simplify_eq. unfold poll_body, sleep in Hb.
    destruct (get env (requests st)) as [response|] eqn:Hget; [|by simplify_eq].
    destruct (negb (status_code response =? 200)) eqn:Hc.
    + simpl in Hb. destruct (10 <? retry_count st + 1) eqn:Hr;
        [|by case_match; simplify_eq].
      simplify_eq/=. rewrite Hget. simpl. rewrite Hc.
      apply Z.ltb_lt in Hr. split; [lia|].
      exists response. repeat split; auto.
      apply negb_true_iff, Z.eqb_neq in Hc. done.
    + repeat (case_match; simplify_eq/=; try done).
Qed.

Lemma is_failure_responded t :
  is_failure t = true → ∃ response, t = Responded response ∧ status_code response ≠ 200.
Proof.
  destruct t as [response|msg]; simpl; [|done].
  intros H. exists response. split; [done|]. by apply Z.eqb_neq, negb_true_iff.
Qed.

(** One iteration of the loop on a failed GET, below the retry bound: the
    loop goes on with the count one higher. *)
Lemma poll_loop_failed_retry fuel st response :
  elapsed st < max_wait →
  get env (requests st) = Responded response →
  status_code response ≠ 200 →
  retry_count st + 1 ≤ 10 →
  0 ≤ poll_interval →
  poll_loop env task_id max_wait poll_interval (S fuel) st
  = poll_loop env task_id max_wait poll_interval fuel
      {| requests := S (requests st); retry_count := retry_count st + 1;
         elapsed := elapsed st + latency env (requests st) + poll_interval |}.
Proof.
  intros He Hget Hc Hr Hp. cbn [poll_loop].
  apply Z.ltb_lt in He. rewrite He, Hget.
  by rewrite poll_body_failed_retry.
Qed.

(** One iteration on a failed GET that takes the count over the bound: the
    loop raises. *)
Lemma poll_loop_failed_over fuel st response :
  elapsed st < max_wait →
  get env (requests st) = Responded response →
  status_code response ≠ 200 →
  10 < retry_count st + 1 →
  poll_loop env task_id max_wait poll_interval (S fuel) st
  = Some (Raise (PollFailedAfterRetries (text response)),
          {| requests := S (requests st); retry_count := retry_count st + 1;
             elapsed := elapsed st + latency env (requests st) |}).
Proof.
  intros He Hget Hc Hr. cbn [poll_loop].
  apply Z.ltb_lt in He. rewrite He, Hget.
  by rewrite poll_body_failed_over.
Qed.

(** One iteration on a 200 response with a non-terminal status: the loop
    goes on with the count at zero. *)
Lemma poll_loop_pending_step fuel st :
  elapsed st < max_wait →
  pending (get env (requests st)) = true →
  0 ≤ poll_interval →
  poll_loop env task_id max_wait poll_interval (S fuel) st
  = poll_loop env task_id max_wait poll_interval fuel
      {| requests := S (requests st); retry_count := 0;
         elapsed := elapsed st + latency env (requests st) + poll_interval |}.
Proof.
  intros He Hpend Hp. cbn [poll_loop].
  apply Z.ltb_lt in He. rewrite He.
  by rewrite poll_body_pending.
Qed.

(** With [n] retries left, [n + 1] failed GETs in a row that fit in the
    time allowed make the loop raise on the last of them. *)
Lemma poll_loop_gives_up n L fuel st :
  retry_count st + Z.of_nat n = 10 →
  (∀ j, (j ≤ n)%nat →
        is_failure (get env (requests st + j)) = true ∧
        0 ≤ latency env (requests st + j) ≤ L) →
  elapsed st + Z.of_nat n * (L + poll_interval) < max_wait →
  0 ≤ poll_interval →
  ∃ last st',
    get env (requests st + n) = Responded last ∧
    poll_loop env task_id max_wait poll_interval (S n + fuel) st
    = Some (Raise (PollFailedAfterRetries (text last)), st') ∧
    requests st' = S (requests st + n) ∧ retry_count st' = 11.
Proof.
  revert st. induction n as [|n IH]; intros st Hr Hfail Hfit Hp.
  - destruct (Hfail 0%nat) as [Hf _]; [lia|].
    rewrite Nat.add_0_r in *.
    apply is_failure_responded in Hf as (last & Hget & Hc).
    eexists last, _. split; [done|]. split.
    + apply poll_loop_failed_over; [lia|done|done|lia].
    + split; [done|]. simpl. lia.
  - destruct (Hfail 0%nat) as [Hf HL]; [lia|].
    rewrite Nat.add_0_r in Hf, HL.
    apply is_failure_responded in Hf as (first & Hget & Hc).
    change (S (S n) + fuel)%nat with (S (S n + fuel)).
    rewrite (poll_loop_failed_retry _ _ first); [|nia|done|done|lia|done].
    destruct (IH {| requests := S (requests st); retry_count := retry_count st + 1;
                    elapsed := elapsed st + latency env (requests st) + poll_interval |})
      as (last & st' & Hlast & Hrun & Hreq & Hcount).
    + simpl. lia.
    + intros j Hj. simpl. rewrite <- Nat.add_succ_r. apply Hfail. lia.
    + simpl. nia.
    + done.
    + simpl in Hlast, Hreq. rewrite <- Nat.add_succ_r in Hlast, Hreq.
      by exists last, st'.
Qed.

End poll_loop.

(** C2. While every GET is answered 200 with a status that is not
    terminal, the loop leaves, and it leaves by raising the timeout that
    names [max_wait]: with a positive [poll_interval] and GETs that take no
    negative time, [poll_fuel max_wait poll_interval] iterations are
    enough.  The elapsed time at that point is at least [max_wait]; when
    GETs take no time at all it is the number of sleeps times
    [poll_interval], and less than [max_wait + poll_interval]. *)
Theorem poll_pending_times_out (vendor : string → PollEnv) (task_id poll_url : string)
    (max_wait poll_interval : Z) :
  0 < poll_interval →
  0 ≤ max_wait →
  (∀ k, pending (get (vendor poll_url) k) = true) →
  (∀ k, 0 ≤ latency (vendor poll_url) k) →
  ∃ st,
    (∀ fuel, (poll_fuel max_wait poll_interval ≤ fuel)%nat →
       replicate._poll_prediction vendor task_id poll_url max_wait poll_interval fuel
       = Some (Raise (PollTimeout max_wait), st)) ∧
    max_wait ≤ elapsed st ∧
    ((∀ k, latency (vendor poll_url) k = 0) →
     elapsed st = Z.of_nat (requests st) * poll_interval ∧
     elapsed st < max_wait + poll_interval).
Proof.
  intros Hp Hm Hpend Hlat. unfold replicate._poll_prediction.
  destruct (poll_loop_terminates (vendor poll_url) task_id max_wait poll_interval
              _ loop_entry Hp Hlat (poll_fuel_covers max_wait poll_interval Hp))
    as [[o st] Hrun].
  fold (poll_fuel max_wait poll_interval) in Hrun.
  destruct (poll_loop_pending _ _ _ _ _ _ _ _ (Z.lt_le_incl _ _ Hp) Hpend Hrun)
    as (-> & Hge & Hz).
  exists st. split; [|split; [done|]].
  - intros fuel Hfuel. by apply (poll_loop_mono _ _ _ _ _ _ _ _ Hrun).
  - intros Hzero. apply Hz; simpl; [done|lia|lia].
Qed.

Lemma poll_pending_times_out_witness :
  ∃ st,
    (∀ fuel, (poll_fuel 12 5 ≤ fuel)%nat →
       replicate._poll_prediction (λ _, always_processing) "task" "url" 12 5 fuel
       = Some (Raise (PollTimeout 12), st)) ∧
    12 ≤ elapsed st ∧
    ((∀ k, latency always_processing k = 0) →
     elapsed st = Z.of_nat (requests st) * 5 ∧ elapsed st < 12 + 5).
Proof.
  apply (poll_pending_times_out (λ _, always_processing) "task" "url" 12 5).
  - lia.
  - lia.
  - intros k. reflexivity.
  - intros k. simpl. lia.
Defined.

(** C3. A response whose status code is not 200 (so every non-2xx
    response) adds one to [retry_count]; if the count then exceeds 10 the
    loop raises "Poll failed after retries", otherwise it sleeps
    [poll_interval] and goes back to the loop test.  Whenever a 200
    response lets the loop continue, the count is back at zero, and a 200
    response with a non-terminal status does let it continue.  Hence a run
    that ends in "Poll failed after retries" has just made eleven GETs in a
    row that were all answered with a code other than 200.  The loop itself
    carries the count from one GET to the next: an iteration that starts
    within the time allowed and whose GET is answered with a code other
    than 200 either goes on with the count one higher or, when that count
    exceeds 10, ends the run with "Poll failed after retries" and that
    response's text; an iteration whose GET is answered 200 with a
    non-terminal status goes on with the count at zero.  So, with [n]
    retries left, [n + 1] GETs in a row answered with a code other than 200
    that fit in the time allowed end the run on the last of them; from the
    entry of [_poll_prediction] that is the eleventh GET. *)
Theorem poll_retry_counter (vendor : string → PollEnv) (task_id poll_url : string)
    (max_wait poll_interval : Z) (st : LoopState) (response : Response) :
  (status_code response ≠ 200 → 10 < retry_count st + 1 →
   replicate.poll_body task_id poll_interval st (Responded response)
   = Stop (Raise (PollFailedAfterRetries (text response)))
          {| requests := requests st; retry_count := retry_count st + 1;
             elapsed := elapsed st |}) ∧
  (status_code response ≠ 200 → retry_count st + 1 ≤ 10 → 0 ≤ poll_interval →
   replicate.poll_body task_id poll_interval st (Responded response)
   = Continue {| requests := requests st; retry_count := retry_count st + 1;
                 elapsed := elapsed st + poll_interval |}) ∧
  (status_code response = 200 →
   ∀ st', replicate.poll_body task_id poll_interval st (Responded response) = Continue st' →
          retry_count st' = 0 ∧ elapsed st' = elapsed st + poll_interval) ∧
  (pending (Responded response) = true → 0 ≤ poll_interval →
   replicate.poll_body task_id poll_interval st (Responded response)
   = Continue {| requests := requests st; retry_count := 0;
                 elapsed := elapsed st + poll_interval |}) ∧
  (∀ fuel msg st',
     replicate._poll_prediction vendor task_id poll_url max_wait poll_interval fuel
     = Some (Raise (PollFailedAfterRetries msg), st') →
     (11 ≤ requests st')%nat ∧
     (∀ j, (requests st' - 11 ≤ j < requests st')%nat →
           is_failure (get (vendor poll_url) j) = true) ∧
     ∃ last, get (vendor poll_url) (pred (requests st')) = Responded last ∧
             text last = msg) ∧
  (∀ fuel,
     elapsed st < max_wait →
     get (vendor poll_url) (requests st) = Responded response →
     status_code response ≠ 200 →
     (retry_count st + 1 ≤ 10 → 0 ≤ poll_interval →
      replicate.poll_loop (vendor poll_url) task_id max_wait poll_interval (S fuel) st
      = replicate.poll_loop (vendor poll_url) task_id max_wait poll_interval fuel
          {| requests := S (requests st); retry_count := retry_count st + 1;
             elapsed := elapsed st + latency (vendor poll_url) (requests st)
                        + poll_interval |}) ∧
     (10 < retry_count st + 1 →
      replicate.poll_loop (vendor poll_url) task_id max_wait poll_interval (S fuel) st
      = Some (Raise (PollFailedAfterRetries (text response)),
              {| requests := S (requests st); retry_count := retry_count st + 1;
                 elapsed := elapsed st + latency (vendor poll_url) (requests st) |}))) ∧
  (∀ fuel,
     elapsed st < max_wait →
     get (vendor poll_url) (requests st) = Responded response →
     pending (Responded response) = true →
     0 ≤ poll_interval →
     replicate.poll_loop (vendor poll_url) task_id max_wait poll_interval (S fuel) st
     = replicate.poll_loop (vendor poll_url) task_id max_wait poll_interval fuel
         {| requests := S (requests st); retry_count := 0;
            elapsed := elapsed st + latency (vendor poll_url) (requests st)
                       + poll_interval |}) ∧
  (∀ n L fuel,
     retry_count st + Z.of_nat n = 10 →
     (∀ j, (j ≤ n)%nat →
           is_failure (get (vendor poll_url) (requests st + j)) = true ∧
           0 ≤ latency (vendor poll_url) (requests st + j) ≤ L) →
     elapsed st + Z.of_nat n * (L + poll_interval) < max_wait →
     0 ≤ poll_interval →
     ∃ last st',
       get (vendor poll_url) (requests st + n) = Responded last ∧
       replicate.poll_loop (vendor poll_url) task_id max_wait poll_interval
         (S n + fuel) st
       = Some (Raise (PollFailedAfterRetries (text last)), st') ∧
       requests st' = S (requests st + n) ∧ retry_count st' = 11) ∧
  (∀ L fuel,
     (∀ j, (j ≤ 10)%nat →
           is_failure (get (vendor poll_url) j) = true ∧
           0 ≤ latency (vendor poll_url) j ≤ L) →
     10 * (L + poll_interval) < max_wait →
     0 ≤ poll_interval →
     ∃ last st',
       get (vendor poll_url) 10 = Responded last ∧
       replicate._poll_prediction vendor task_id poll_url max_wait poll_interval
         (11 + fuel)
       = Some (Raise (PollFailedAfterRetries (text last)), st') ∧
       requests st' = 11%nat ∧ retry_count st' = 11).
Proof.
  split; [apply poll_body_failed_over|].
  split; [apply poll_body_failed_retry|].
  split; [|split; [apply poll_body_pending|]].
  - intros Hc st' Hb.
    apply poll_body_continue in Hb as (_ & _ & He & [(Hf & _)|(_ & Hr)]); [|done].
    simpl in Hf. rewrite Hc in Hf. discriminate.
  - split; [|split; [|split; [|split]]].
    + intros fuel msg st' Hrun. unfold replicate._poll_prediction in Hrun.
      apply poll_loop_retries in Hrun as (Htf & last & Hget & _ & Htext);
        [|reflexivity|simpl; lia].
      pose proof (trailing_failures_le (vendor poll_url) (requests st')) as Hle.
      split; [lia|]. split; [|eauto].
      intros j Hj. apply (trailing_failures_run (vendor poll_url) (requests st')). lia.
    + intros fuel He Hget Hc. split.
      * intros Hr Hp. by apply (poll_loop_failed_retry _ _ _ _ _ _ response).
      * intros Hr. by apply poll_loop_failed_over.
    + intros fuel He Hget Hpend Hp. apply poll_loop_pending_step; [done| |done].
      by rewrite Hget.
    + intros n L fuel. apply poll_loop_gives_up.
    + intros L fuel Hfail Hfit Hp. unfold replicate._poll_prediction.
      apply (poll_loop_gives_up (vendor poll_url) task_id max_wait poll_interval
               10 L fuel loop_entry); [reflexivity|exact Hfail| |done].
      simpl. lia.
Qed.

Lemma poll_retry_counter_witness :
  replicate.poll_body "task" 5 {| requests := 11; retry_count := 10; elapsed := 50 |}
    (Responded {| status_code := 503; text := "unavailable"; body := None |})
  = Stop (Raise (PollFailedAfterRetries "unavailable"))
         {| requests := 11; retry_count := 11; elapsed := 50 |} ∧
  replicate.poll_body "task" 5 {| requests := 3; retry_count := 2; elapsed := 10 |}
    (Responded {| status_code := 503; text := "unavailable"; body := None |})
  = Continue {| requests := 3; retry_count := 3; elapsed := 15 |} ∧
  ((11 ≤ 11)%nat ∧
   (∀ j, (11 - 11 ≤ j < 11)%nat → is_failure (get always_unavailable j) = true)) ∧
  replicate.poll_loop always_unavailable "task" 300 5 4
    {| requests := 3; retry_count := 2; elapsed := 10 |}
  = replicate.poll_loop always_unavailable "task" 300 5 3
      {| requests := 4; retry_count := 3; elapsed := 15 |} ∧
  ∃ last st',
    get always_unavailable 10 = Responded last ∧
    replicate._poll_prediction (λ _, always_unavailable) "task" "url" 300 5 11
    = Some (Raise (PollFailedAfterRetries (text last)), st') ∧
    requests st' = 11%nat ∧ retry_count st' = 11.
Proof.
  split; [|split; [|split; [|split]]].
  - apply (proj1 (poll_retry_counter (λ _, always_unavailable) "task" "url" 300 5
                    {| requests := 11; retry_count := 10; elapsed := 50 |}
                    {| status_code := 503; text := "unavailable"; body := None |}));
      simpl; lia.
  - apply (proj1 (proj2 (poll_retry_counter (λ _, always_unavailable) "task" "url" 300 5
                    {| requests := 3; retry_count := 2; elapsed := 10 |}
                    {| status_code := 503; text := "unavailable"; body := None |})));
      simpl; lia.
  - destruct (proj1 (proj2 (proj2 (proj2 (proj2
              (poll_retry_counter (λ _, always_unavailable) "task" "url" 300 5
                 loop_entry
                 {| status_code := 503; text := "unavailable"; body := None |})))))
              12%nat "unavailable"
              {| requests := 11; retry_count := 11; elapsed := 50 |} eq_refl)
      as (H1 & H2 & _).
    exact (conj H1 H2).
  - apply (proj1 (proj2 (proj2 (proj2 (proj2 (proj2
              (poll_retry_counter (λ _, always_unavailable) "task" "url" 300 5
                 {| requests := 3; retry_count := 2; elapsed := 10 |}
                 {| status_code := 503; text := "unavailable"; body := None |}))))))
              3%nat);
      simpl; (lia || reflexivity || discriminate).
  - apply (proj2 (proj2 (proj2 (proj2 (proj2 (proj2 (proj2 (proj2
              (poll_retry_counter (λ _, always_unavailable) "task" "url" 300 5
                 loop_entry
                 {| status_code := 503; text := "unavailable"; body := None |}))))))))
              0 0%nat).
    + intros j Hj. simpl. split; [reflexivity|lia].
    + lia.
    + lia.
Defined.

Example poll_retry_budget_renewed :
  replicate._poll_prediction (λ _, flaky_vendor) "task" "url" 300 5 30
  = Some (Return (Success "task" (JStr "https://cdn/v.mp4")),
          {| requests := 22; retry_count := 0; elapsed := 105 |}).
Proof. vm_compute. reflexivity. Qed.

(** C4. When the loop, still within [max_wait], gets a 200 response whose
    status is "succeeded": a non-empty list as output gives [Success] with
    the list's first element as result URL; a non-empty string gives
    [Success] with that string; every other output (empty list, empty
    string, absent, or of another type) raises the "No usable output"
    error and no [Success]. *)
Theorem poll_succeeded_output (env : PollEnv) (task_id : string)
    (max_wait poll_interval : Z) (fuel : nat) (st : LoopState)
    (response : Response) (data : list (string * json)) :
  elapsed st < max_wait →
  get env (requests st) = Responded response →
  status_code response = 200 →
  body response = Some (JDict data) →
  dict_get data "status" = Some (JStr "succeeded") →
  let output := json_get data "output" in
  let run := fst <$> replicate.poll_loop env task_id max_wait poll_interval (S fuel) st in
  (∀ u us, output = JList (u :: us) → run = Some (Return (Success task_id u))) ∧
  (∀ s, output = JStr s → s ≠ "" → run = Some (Return (Success task_id (JStr s)))) ∧
  ((∀ u us, output ≠ JList (u :: us)) → (∀ s, s ≠ "" → output ≠ JStr s) →
   run = Some (Raise (NoUsableOutput (JDict data)))).
Proof.
  intros Hel Hget Hc Hbody Hstatus output run. subst output run.
  apply Z.ltb_lt in Hel. cbn [replicate.poll_loop]. rewrite Hel, Hget.
  unfold replicate.poll_body. rewrite Hc, Hbody, Hstatus. simpl.
  split; [|split].
  - intros u us ->. reflexivity.
  - intros s -> Hs. apply nonempty_true in Hs. by rewrite Hs.
  - intros Hlist Hstr. destruct (json_get data "output") as [| | | |s|[|u us]|] eqn:E;
      try reflexivity.
    + destruct (nonempty s) eqn:Hs; [|reflexivity].
      apply nonempty_true in Hs. by destruct (Hstr s Hs).
    + by destruct (Hlist u us).
Qed.

Lemma poll_succeeded_output_witness :
  fst <$> replicate.poll_loop (succeeded_with (JList [JStr "u1"; JStr "u2"]))
            "task" 300 5 1 loop_entry
  = Some (Return (Success "task" (JStr "u1"))) ∧
  fst <$> replicate.poll_loop (succeeded_with (JList [])) "task" 300 5 1 loop_entry
  = Some (Raise (NoUsableOutput (JDict [("status", JStr "succeeded"); ("output", JList [])]))).
Proof.
  split.
  - refine (proj1 (poll_succeeded_output (succeeded_with (JList [JStr "u1"; JStr "u2"]))
                     "task" 300 5 0 loop_entry _ _ _ eq_refl eq_refl eq_refl eq_refl)
                  (JStr "u1") [JStr "u2"] eq_refl).
    simpl. lia.
  - refine (proj2 (proj2 (poll_succeeded_output (succeeded_with (JList []))
                     "task" 300 5 0 loop_entry _ _ _ eq_refl eq_refl eq_refl eq_refl))
                  _ _).
    + simpl. lia.
    + intros u us H. discriminate.
    + intros s _ H. discriminate.
Defined.

(** ** The fan-out *)

Section fan_out.

Implicit Types (futures : list (string * Outcome GenerationResult)).
Implicit Types (results : gmap string GenerationResult) (order : list nat).

Lemma collect_lookup futures order results tid r :
  foldl (store_result futures) results order !! tid = Some r →
  results !! tid = Some r ∨
  ∃ i o, i ∈ order ∧ futures !! i = Some (tid, o) ∧ r = result_of tid o.
Proof.
  revert results. induction order as [|i order IH]; intros results; simpl; [auto|].
  intros H. apply IH in H as [H|(j & o & Hj & Hf & ->)].
  - unfold store_result in H. destruct (futures !! i) as [[tid' o]|] eqn:Hf; [|auto].
    destruct (decide (tid' = tid)) as [->|Hne].
    + rewrite lookup_insert_eq in H. simplify_eq. right. exists i, o.
      split; [left|done].
    + rewrite lookup_insert_ne in H by done. auto.
  - right. exists j, o. split; [by right|done].
Qed.

Lemma collect_dom futures order results tid :
  tid ∈ dom (foldl (store_result futures) results order) ↔
  tid ∈ dom results ∨ ∃ i o, i ∈ order ∧ futures !! i = Some (tid, o).
Proof.
  revert results. induction order as [|i order IH]; intros results; simpl.
  - split; [auto|]. intros [H|(i & o & Hi & _)]; [done|]. by apply not_elem_of_nil in Hi.
  - rewrite IH. unfold store_result. split.
    + intros [H|(j & o & Hj & Hf)].
      * destruct (futures !! i) as [[tid' o]|] eqn:Hf; [|auto].
        rewrite dom_insert_L in H. apply elem_of_union in H as [H|H]; [|auto].
        apply elem_of_singleton in H as ->. right. exists i, o. split; [left|done].
      * right. exists j, o. split; [by right|done].
    + intros [H|(j & o & Hj & Hf)].
      * left. destruct (futures !! i) as [[tid' o]|]; [|done].
        rewrite dom_insert_L. apply elem_of_union. by right.
      * apply elem_of_cons in Hj as [->|Hj].
        -- left. rewrite Hf, dom_insert_L. apply elem_of_union. left.
           by apply elem_of_singleton.
        -- right. eauto.
Qed.

Lemma run_futures_spec (f : nat → string → option (Outcome GenerationResult))
    (task_ids : list string) :
  (∀ i tid, task_ids !! i = Some tid → is_Some (f i tid)) →
  ∃ futures,
    run_futures f task_ids = Some futures ∧
    ∀ i tid o, futures !! i = Some (tid, o) ↔ task_ids !! i = Some tid ∧ f i tid = Some o.
Proof.
  intros Hdone. unfold run_futures.
  set (g := λ '(i, tid), o ← f i tid; Some (tid, o)).
  assert (is_Some (mapM g (imap pair task_ids))) as [futures Hfut].
  { apply mapM_is_Some, Forall_lookup. intros i [j tid] Hl.
    rewrite list_lookup_imap in Hl. destruct (task_ids !! i) as [tid'|] eqn:Ht; [|done].
    simpl in Hl. injection Hl as Hi Ht'. subst j tid'. simpl.
    destruct (Hdone _ _ Ht) as [o Ho]. rewrite Ho. by eexists. }
  exists futures. split; [done|].
  apply mapM_Some in Hfut. intros i tid o. split.
  - intros Hf. destruct (Forall2_lookup_r _ _ _ _ _ Hfut Hf) as ([j tid'] & Hl & Hg).
    rewrite list_lookup_imap in Hl. destruct (task_ids !! i) as [tid''|] eqn:Ht; [|done].
    simpl in Hl. injection Hl as Hi Ht'. subst j tid''. simpl in Hg.
    destruct (f i tid') as [o'|] eqn:Ho; [|done].
    simpl in Hg. injection Hg as -> ->. done.
  - intros [Ht Ho].
    assert (imap pair task_ids !! i = Some (i, tid)) as Hl
      by (by rewrite list_lookup_imap, Ht).
    destruct (Forall2_lookup_l _ _ _ _ _ Hfut Hl) as ([tid' o'] & Hf & Hg).
    simpl in Hg. rewrite Ho in Hg. by simplify_eq/=.
Qed.

(** The result dictionary of the fan-out, for workers that all return. *)
Lemma poll_many_spec (f : nat → string → option (Outcome GenerationResult))
    order (task_ids : list string) :
  order ≡ₚ seq 0 (length task_ids) →
  (∀ i tid, task_ids !! i = Some tid → is_Some (f i tid)) →
  ∃ results,
    poll_many f order task_ids = Some results ∧
    dom results = list_to_set task_ids ∧
    (∀ tid r, results !! tid = Some r →
       ∃ i o, task_ids !! i = Some tid ∧ f i tid = Some o ∧ r = result_of tid o) ∧
    (∀ i tid o, task_ids !! i = Some tid →
       (∀ j, task_ids !! j = Some tid → j = i) →
       f i tid = Some o → results !! tid = Some (result_of tid o)).
Proof.
  intros Hperm Hdone.
  destruct (run_futures_spec f task_ids Hdone) as (futures & Hrun & Hfut).
  assert (∀ i, i ∈ order ↔ (i < length task_ids)%nat) as Horder.
  { intros i. rewrite Hperm, elem_of_seq. lia. }
  assert (∀ tid, tid ∈ dom (collect futures order) ↔ tid ∈ task_ids) as Hdom.
  { intros tid. unfold collect. rewrite collect_dom, dom_empty_L, list_elem_of_lookup.
    split.
    - intros [H|(i & o & _ & Hf)]; [by apply not_elem_of_empty in H|].
      apply Hfut in Hf as [Ht _]. eauto.
    - intros [i Ht]. right. destruct (Hdone _ _ Ht) as [o Ho]. exists i, o.
      split; [|by apply Hfut]. apply Horder. by eapply lookup_lt_Some. }
  assert (∀ tid r, collect futures order !! tid = Some r →
            ∃ i o, task_ids !! i = Some tid ∧ f i tid = Some o ∧ r = result_of tid o)
    as Hfrom.
  { intros tid r H. apply collect_lookup in H as [H|(i & o & _ & Hf & ->)].
    - by rewrite lookup_empty in H.
    - apply Hfut in Hf as [Ht Ho]. eauto. }
  exists (match task_ids with [] => ∅ | _ => collect futures order end).
  assert (match task_ids with [] => ∅ | _ => collect futures order end
          = collect futures order) as ->.
  { destruct task_ids; [|done]. simpl in Hperm. apply Permutation_nil_r in Hperm.
    by subst. }
  split; [|split; [|split]].
  - unfold poll_many. destruct task_ids; [|by rewrite Hrun].
    simpl in Hperm. apply Permutation_nil_r in Hperm. by subst.
  - apply set_eq. intros tid. by rewrite Hdom, elem_of_list_to_set.
  - done.
  - intros i tid o Ht Huniq Ho.
    assert (tid ∈ dom (collect futures order)) as Hin.
    { apply Hdom, list_elem_of_lookup. eauto. }
    apply elem_of_dom in Hin as [r Hr]. rewrite Hr.
    destruct (Hfrom _ _ Hr) as (j & o' & Hj & Ho' & ->).
    apply Huniq in Hj as ->. congruence.
Qed.

End fan_out.

Lemma fan_out_isolated_intro (f : nat → string → option (Outcome GenerationResult))
    (order : list nat) (task_ids : list string) :
  order ≡ₚ seq 0 (length task_ids) →
  (∀ i tid, task_ids !! i = Some tid → is_Some (f i tid)) →
  ∃ results, poll_many f order task_ids = Some results ∧
             fan_out_isolated f task_ids results.
Proof.
  intros Hperm Hdone.
  destruct (poll_many_spec f order task_ids Hperm Hdone)
    as (results & Hrun & Hdom & Hfrom & Huniq).
  exists results. split; [done|]. repeat split; try done.
  - intros e He. by apply (Huniq i tid (Raise e)).
  - intros r Hr. by apply (Huniq i tid (Return r)).
Qed.

Lemma replicate_poll_one_returns (vendor : string → PollEnv)
    (urls : gmap string string) (max_wait poll_interval : Z) (fuel : nat) (tid : string) :
  0 < poll_interval →
  (∀ u k, 0 ≤ latency (vendor u) k) →
  (poll_fuel max_wait poll_interval ≤ fuel)%nat →
  is_Some (replicate._poll_one vendor urls max_wait poll_interval fuel tid).
Proof.
  intros Hp Hlat Hfuel. unfold replicate._poll_one.
  destruct (urls !! tid) as [url|]; [|eauto].
  destruct (nonempty url); [|eauto].
  unfold replicate._poll_prediction.
  destruct (poll_loop_terminates (vendor url) tid max_wait poll_interval
              _ loop_entry Hp (Hlat url) (poll_fuel_covers max_wait poll_interval Hp))
    as [r Hr].
  rewrite (poll_loop_mono _ _ _ _ _ _ _ _ Hr Hfuel). simpl. eauto.
Qed.

(** C1. Both adapters' [poll_tasks_parallel] return normally, with a
    dictionary whose keys are exactly the input task ids, whatever the
    workers' outcomes and in whatever order they complete: a worker that
    raised (a timeout, a vendor failure, a missing poll URL, a transport
    exception) contributes [Error tid e] under its own task id and leaves
    the other workers' results as they are.  For Replicate every worker's
    loop is shown to leave, given a positive [poll_interval] and enough
    iterations; for WaveSpeed the loop is the helper's, assumed to return.
    An empty input gives the empty dictionary. *)
Theorem poll_tasks_parallel_isolates (vendor : nat → string → PollEnv)
    (poll_wavespeed_task : nat → wavespeed.PollHelper)
    (_task_poll_urls : gmap string string) (order : list nat)
    (task_ids : list string) (max_wait poll_interval : Z) (fuel : nat) :
  order ≡ₚ seq 0 (length task_ids) →
  (0 < poll_interval →
   (∀ i u k, 0 ≤ latency (vendor i u) k) →
   (poll_fuel max_wait poll_interval ≤ fuel)%nat →
   ∃ results,
     replicate.poll_tasks_parallel vendor _task_poll_urls order task_ids
       max_wait poll_interval fuel = Some results ∧
     fan_out_isolated
       (λ i, replicate._poll_one (vendor i) _task_poll_urls max_wait poll_interval fuel)
       task_ids results) ∧
  ((∀ i tid, task_ids !! i = Some tid →
      is_Some (wavespeed.poll_video (poll_wavespeed_task i) _task_poll_urls tid
                 max_wait poll_interval true)) →
   ∃ results,
     wavespeed.poll_tasks_parallel poll_wavespeed_task _task_poll_urls order task_ids
       max_wait poll_interval = Some results ∧
     fan_out_isolated
       (λ i tid, wavespeed.poll_video (poll_wavespeed_task i) _task_poll_urls tid
                   max_wait poll_interval true)
       task_ids results) ∧
  replicate.poll_tasks_parallel vendor _task_poll_urls order []
    max_wait poll_interval fuel = Some ∅ ∧
  wavespeed.poll_tasks_parallel poll_wavespeed_task _task_poll_urls order []
    max_wait poll_interval = Some ∅.
Proof.
  intros Hperm. split; [|split; [|split; reflexivity]].
  - intros Hp Hlat Hfuel. apply fan_out_isolated_intro; [done|].
    intros i tid _. apply replicate_poll_one_returns; auto.
  - intros Hdone. by apply fan_out_isolated_intro.
Qed.

Lemma poll_tasks_parallel_isolates_witness :
  ∃ results,
    replicate.poll_tasks_parallel (λ _, drops_b) three_urls [2; 0; 1]%nat ["a"; "b"; "c"]
      600 5 (poll_fuel 600 5) = Some results ∧
    fan_out_isolated
      (λ _, replicate._poll_one drops_b three_urls 600 5 (poll_fuel 600 5))
      ["a"; "b"; "c"] results.
Proof.
  apply (proj1 (poll_tasks_parallel_isolates (λ _, drops_b)
                  (λ _ _ _ _ _ _, None) three_urls [2; 0; 1]%nat ["a"; "b"; "c"]
                  600 5 (poll_fuel 600 5)
                  (Permutation_cons_append [0; 1]%nat 2%nat))).
  - lia.
  - intros _ u k. unfold drops_b. destruct (String.eqb u "https://api/b"); simpl; lia.
  - lia.
Defined.

Example poll_tasks_parallel_three :
  ∃ results,
    replicate.poll_tasks_parallel (λ _, drops_b) three_urls [2; 0; 1]%nat ["a"; "b"; "c"]
      600 5 (poll_fuel 600 5) = Some results ∧
    results !! "a" = Some (Success "a" (JStr "https://api/a")) ∧
    results !! "b" = Some (Error "b" (RequestException "connection reset")) ∧
    results !! "c" = Some (Success "c" (JStr "https://api/c")) ∧
    results !! "d" = None.
Proof. eexists. split; [reflexivity|]. vm_compute. done. Qed.

(** ** The handle dictionary *)

Section handles.
Import replicate.

Lemma truthy_id_str task_id t :
  truthy_id task_id = Some (KeyStr t) → task_id = IdStr t ∧ t ≠ "".
Proof.
  destruct task_id as [|s| |]; simpl; try done.
  destruct (nonempty s) eqn:Hs; [|done]. intros [= ->].
  split; [done|]. by apply nonempty_true.
Qed.

(** [_submit_prediction] returns only what an accepted response carried. *)
Lemma _submit_prediction_returns post model_path input_payload key poll_url :
  _submit_prediction post model_path input_payload = Return (key, poll_url) →
  ∃ response task_id,
    post model_path (JDict [("input", input_payload)]) = Responded response ∧
    (post_status_code response = 200 ∨ post_status_code response = 201) ∧
    post_body response = Some (BodyObject task_id (UrlsObject (Some poll_url))) ∧
    truthy_id task_id = Some key ∧ poll_url ≠ "".
Proof.
  unfold _submit_prediction. intros H.
  destruct (post _ _) as [response|]; [|done].
  destruct (negb _) eqn:Hc; [done|].
  destruct (post_body response) as [[|task_id [| |[u|]]]|] eqn:Hb; try done.
  destruct (truthy_id task_id) as [k|] eqn:Hk; [|done].
  destruct (nonempty u) eqn:Hu; [|done]. simplify_eq.
  exists response, task_id. repeat split; try done.
  - apply negb_false_iff, orb_true_iff in Hc as [Hc|Hc]; apply Z.eqb_eq in Hc; auto.
  - by apply nonempty_true.
Qed.

Lemma record_task_spec key poll_url urls o urls' :
  record_task (key, poll_url) urls = (o, urls') →
  match o with
  | Raise e =>
      urls' = urls ∧
      ((key = KeyList ∧ e = TypeError "unhashable type: 'list'") ∨
       (key = KeyObject ∧ e = TypeError "unhashable type: 'dict'"))
  | Return task_id => key = KeyStr task_id ∧ urls' = <[task_id := poll_url]> urls
  end.
Proof. destruct key; simpl; intros H; simplify_eq; auto. Qed.

(** A submit call either raises and leaves the dictionary alone, or returns
    a task id after storing a non-empty poll URL under it. *)
Lemma run_call_records c urls o urls' :
  run_call c urls = (o, urls') →
  match o with
  | Raise _ => urls' = urls
  | Return task_id =>
      ∃ poll_url, poll_url ≠ "" ∧ task_id ≠ "" ∧ urls' = <[task_id := poll_url]> urls
  end.
Proof.
  assert (∀ post path payload,
            match _submit_prediction post path payload with
            | Raise e => (Raise e, urls)
            | Return task_info => record_task task_info urls
            end = (o, urls') →
            match o with
            | Raise _ => urls' = urls
            | Return task_id =>
                ∃ poll_url, poll_url ≠ "" ∧ task_id ≠ "" ∧
                            urls' = <[task_id := poll_url]> urls
            end) as Hsub.
  { intros post path payload H.
    destruct (_submit_prediction _ _ _) as [[key u]|e] eqn:Hs; [|by simplify_eq].
    apply _submit_prediction_returns in Hs as (r & id & _ & _ & _ & Hk & Hu).
    apply record_task_spec in H. destruct o as [t|e]; [|by destruct H].
    destruct H as [-> ->]. apply truthy_id_str in Hk as [_ Ht]. eauto. }
  destruct c; simpl; unfold submit_image, submit_video; intros H.
  - destruct (dict_get _IMAGE_MODELS model); [by eapply Hsub|by simplify_eq].
  - destruct (dict_get _VIDEO_MODELS model); [|by simplify_eq].
    destruct (_build_video_payload _ _ _ _ _) as [payload|e]; simpl in H;
      [by eapply Hsub|by simplify_eq].
Qed.

Lemma records_insert urls issued task_id poll_url :
  records urls issued → poll_url ≠ "" →
  records (<[task_id := poll_url]> urls) (issued ++ [task_id]).
Proof.
  intros Hrec Hu tid. destruct (decide (task_id = tid)) as [->|Hne].
  - rewrite lookup_insert_eq. split; [eauto|].
    intros Hnot. exfalso. apply Hnot, elem_of_app. right. by apply list_elem_of_singleton.
  - rewrite lookup_insert_ne by done. destruct (Hrec tid) as [Hin Hout]. split.
    + intros H. apply elem_of_app in H as [H|H]; [auto|].
      apply list_elem_of_singleton in H. congruence.
    + intros H. apply Hout. intros Hi. apply H, elem_of_app. by left.
Qed.

Lemma session_records calls urls issued urls' issued' :
  records urls issued →
  session calls urls issued = (urls', issued') →
  records urls' issued'.
Proof.
  revert urls issued. induction calls as [|c calls IH]; intros urls issued Hrec H.
  - simpl in H. by simplify_eq.
  - simpl in H. destruct (run_call c urls) as [o urls1] eqn:Hc.
    apply run_call_records in Hc. destruct o as [task_id|e].
    + destruct Hc as (poll_url & Hu & _ & ->).
      eapply IH; [|done]. by apply records_insert.
    + subst. by eapply IH.
Qed.

Lemma records_empty : records ∅ [].
Proof.
  intros tid. split; [|by rewrite lookup_empty].
  intros H. by apply not_elem_of_nil in H.
Qed.

(** Later submissions never remove or blank an entry. *)
Lemma session_keeps calls urls issued urls' issued' tid :
  (∃ url, urls !! tid = Some url ∧ url ≠ "") →
  session calls urls issued = (urls', issued') →
  ∃ url, urls' !! tid = Some url ∧ url ≠ "".
Proof.
  revert urls issued. induction calls as [|c calls IH]; intros urls issued Hhas H.
  - simpl in H. by simplify_eq.
  - simpl in H. destruct (run_call c urls) as [o urls1] eqn:Hc.
    apply run_call_records in Hc. destruct o as [task_id|e].
    + destruct Hc as (poll_url & Hu & _ & ->). eapply IH; [|done].
      destruct (decide (task_id = tid)) as [->|Hne].
      * rewrite lookup_insert_eq. eauto.
      * by rewrite lookup_insert_ne.
    + subst. by eapply IH.
Qed.

(** The poll loop itself never reports an unknown handle. *)
Lemma poll_loop_knows_handle env task_id max_wait poll_interval fuel st o st' :
  poll_loop env task_id max_wait poll_interval fuel st = Some (o, st') →
  ∀ v t k, o ≠ Raise (NoPollUrlStored v t k).
Proof.
  revert st. induction fuel as [|fuel IH]; intros st H; [done|].
  simpl in H. destruct (elapsed st <? max_wait); [|by simplify_eq].
  destruct (poll_body _ _ _ _) as [st1|o1 st1] eqn:Hb; [by eapply IH|].
  simplify_eq. intros v t k ->.
  unfold poll_body, sleep in Hb. repeat (case_match; simplify_eq/=; try done).
Qed.

Lemma poll_found (vendor : string → PollEnv) urls task_id poll_url max_wait poll_interval fuel :
  urls !! task_id = Some poll_url → poll_url ≠ "" →
  poll_image vendor urls task_id max_wait poll_interval fuel
  = _poll_prediction vendor task_id poll_url max_wait poll_interval fuel ∧
  poll_video vendor urls task_id max_wait poll_interval fuel
  = _poll_prediction vendor task_id poll_url max_wait poll_interval fuel.
Proof.
  intros Hl Hu. unfold poll_image, poll_video. rewrite Hl.
  apply nonempty_true in Hu. by rewrite Hu.
Qed.

End handles.

(** C7. In a session of the Replicate adapter (the module imported, then
    any sequence of [submit_image] and [submit_video] calls, failed ones
    included), [poll_image] and [poll_video] raise "No poll URL stored" for
    a task id exactly when no submit call of the session returned that id.
    A submit call that returns an id has stored a non-empty poll URL under
    it; polling an id that was not returned raises before any GET is made;
    polling a returned id runs the poll loop on the stored URL, and the
    loop never raises that error. *)
Theorem poll_unknown_handle_iff_not_issued (calls : list replicate.Call)
    (_task_poll_urls : gmap string string) (issued : list string)
    (vendor : string → PollEnv) (task_id : string)
    (max_wait poll_interval : Z) (fuel : nat) :
  replicate.session calls ∅ [] = (_task_poll_urls, issued) →
  (∀ c urls0 tid urls1,
     replicate.run_call c urls0 = (Return tid, urls1) →
     ∃ url, urls1 !! tid = Some url ∧ url ≠ "") ∧
  ((∃ st k, replicate.poll_image vendor _task_poll_urls task_id max_wait poll_interval fuel
            = Some (Raise (NoPollUrlStored Replicate task_id k), st))
   ↔ task_id ∉ issued) ∧
  ((∃ st k, replicate.poll_video vendor _task_poll_urls task_id max_wait poll_interval fuel
            = Some (Raise (NoPollUrlStored Replicate task_id k), st))
   ↔ task_id ∉ issued) ∧
  (task_id ∉ issued →
   replicate.poll_image vendor _task_poll_urls task_id max_wait poll_interval fuel
   = Some (Raise (NoPollUrlStored Replicate task_id Image), loop_entry) ∧
   replicate.poll_video vendor _task_poll_urls task_id max_wait poll_interval fuel
   = Some (Raise (NoPollUrlStored Replicate task_id Video), loop_entry) ∧
   requests loop_entry = 0%nat) ∧
  (task_id ∈ issued →
   ∃ url, _task_poll_urls !! task_id = Some url ∧ url ≠ "" ∧
     replicate.poll_image vendor _task_poll_urls task_id max_wait poll_interval fuel
     = replicate._poll_prediction vendor task_id url max_wait poll_interval fuel ∧
     replicate.poll_video vendor _task_poll_urls task_id max_wait poll_interval fuel
     = replicate._poll_prediction vendor task_id url max_wait poll_interval fuel ∧
     ∀ o st, replicate._poll_prediction vendor task_id url max_wait poll_interval fuel
             = Some (o, st) →
             ∀ v t k, o ≠ Raise (NoPollUrlStored v t k)).
Proof.
  intros Hsession.
  pose proof (session_records _ _ _ _ _ records_empty Hsession task_id) as [Hin Hout].
  assert (task_id ∉ issued →
          replicate.poll_image vendor _task_poll_urls task_id max_wait poll_interval fuel
          = Some (Raise (NoPollUrlStored Replicate task_id Image), loop_entry) ∧
          replicate.poll_video vendor _task_poll_urls task_id max_wait poll_interval fuel
          = Some (Raise (NoPollUrlStored Replicate task_id Video), loop_entry)) as Hunknown.
  { intros H. unfold replicate.poll_image, replicate.poll_video. by rewrite (Hout H). }
  assert (task_id ∈ issued →
          ∃ url, _task_poll_urls !! task_id = Some url ∧ url ≠ "" ∧
            replicate.poll_image vendor _task_poll_urls task_id max_wait poll_interval fuel
            = replicate._poll_prediction vendor task_id url max_wait poll_interval fuel ∧
            replicate.poll_video vendor _task_poll_urls task_id max_wait poll_interval fuel
            = replicate._poll_prediction vendor task_id url max_wait poll_interval fuel ∧
            ∀ o st, replicate._poll_prediction vendor task_id url max_wait poll_interval fuel
                    = Some (o, st) →
                    ∀ v t k, o ≠ Raise (NoPollUrlStored v t k)) as Hknown.
  { intros H. destruct (Hin H) as (url & Hl & Hu). exists url.
    destruct (poll_found vendor _ _ _ max_wait poll_interval fuel Hl Hu) as [Hi Hv].
    repeat split; try done.
    intros o st Hrun. by eapply poll_loop_knows_handle. }
  split; [|split; [|split; [|split]]].
  - intros c urls0 tid urls1 Hc. apply run_call_records in Hc as (url & Hu & _ & ->).
    exists url. by rewrite lookup_insert_eq.
  - split.
    + intros (st & k & Hraise) Hi. destruct (Hknown Hi) as (url & _ & _ & Heq & _ & Hnever).
      rewrite Heq in Hraise. by eapply Hnever.
    + intros H. destruct (Hunknown H) as [Hi _]. eauto.
  - split.
    + intros (st & k & Hraise) Hi. destruct (Hknown Hi) as (url & _ & _ & _ & Heq & Hnever).
      rewrite Heq in Hraise. by eapply Hnever.
    + intros H. destruct (Hunknown H) as [_ Hv]. eauto.
  - intros H. destruct (Hunknown H). done.
  - done.
Qed.

Lemma poll_unknown_handle_iff_not_issued_witness :
  ("p2" ∉ ["p1"]) ∧
  replicate.poll_video (λ _, always_processing) (<["p1" := "https://api/p1"]> ∅) "p2" 600 10 0
  = Some (Raise (NoPollUrlStored Replicate "p2" Video), loop_entry).
Proof.
  assert ("p2" ∉ ["p1"]) as Hnot.
  { intros H. apply list_elem_of_singleton in H. discriminate. }
  split; [exact Hnot|].
  destruct (poll_unknown_handle_iff_not_issued
              [replicate.call_submit_image accepts_as_p1 "a cat" "9:16" "1K" "flux-schnell"]
              (<["p1" := "https://api/p1"]> ∅) ["p1"]
              (λ _, always_processing) "p2" 600 10 0 eq_refl)
    as (_ & _ & _ & Hunknown & _).
  exact (proj1 (proj2 (Hunknown Hnot))).
Defined.

(** C10. The Replicate adapter has one [_task_poll_urls] for both kinds: a
    task id returned by [submit_image] is found by [poll_video], and one
    returned by [submit_video] is found by [poll_image], also after any
    further submissions; the poll then runs the loop on the stored URL and
    does not raise "No poll URL stored".  The WaveSpeed adapter likewise
    stores what either submit function got from its helper in one
    dictionary, where the other kind's poll function finds it and, the
    stored URL being non-empty, hands it to the polling helper. *)
Theorem handles_shared_across_kinds (vendor : string → PollEnv)
    (max_wait poll_interval : Z) (fuel : nat) (quiet : bool) :
  (∀ post prompt aspect_ratio resolution model urls tid urls1 later issued urls2 issued2,
     replicate.submit_image post prompt aspect_ratio resolution model urls
     = (Return tid, urls1) →
     replicate.session later urls1 issued = (urls2, issued2) →
     ∃ url, urls2 !! tid = Some url ∧ url ≠ "" ∧
       replicate.poll_video vendor urls2 tid max_wait poll_interval fuel
       = replicate._poll_prediction vendor tid url max_wait poll_interval fuel ∧
       ∀ o st, replicate.poll_video vendor urls2 tid max_wait poll_interval fuel
               = Some (o, st) →
               ∀ v t k, o ≠ Raise (NoPollUrlStored v t k)) ∧
  (∀ post prompt image_url model duration aspect_ratio urls tid urls1
     later issued urls2 issued2,
     replicate.submit_video post prompt image_url model duration aspect_ratio urls
     = (Return tid, urls1) →
     replicate.session later urls1 issued = (urls2, issued2) →
     ∃ url, urls2 !! tid = Some url ∧ url ≠ "" ∧
       replicate.poll_image vendor urls2 tid max_wait poll_interval fuel
       = replicate._poll_prediction vendor tid url max_wait poll_interval fuel ∧
       ∀ o st, replicate.poll_image vendor urls2 tid max_wait poll_interval fuel
               = Some (o, st) →
               ∀ v t k, o ≠ Raise (NoPollUrlStored v t k)) ∧
  (∀ submit_wavespeed_task poll_wavespeed_task prompt reference_urls
     aspect_ratio resolution model urls tid urls1,
     wavespeed.submit_image submit_wavespeed_task prompt reference_urls
       aspect_ratio resolution model urls = (Return tid, urls1) →
     ∃ url, urls1 !! tid = Some url ∧
       (url ≠ "" →
        wavespeed.poll_video poll_wavespeed_task urls1 tid max_wait poll_interval quiet
        = poll_wavespeed_task tid url max_wait poll_interval quiet)) ∧
  (∀ submit_wavespeed_task poll_wavespeed_task prompt image_url model duration
     aspect_ratio mode urls tid urls1,
     wavespeed.submit_video submit_wavespeed_task prompt image_url model duration
       aspect_ratio mode urls = (Return tid, urls1) →
     ∃ url, urls1 !! tid = Some url ∧
       (url ≠ "" →
        wavespeed.poll_image poll_wavespeed_task urls1 tid max_wait poll_interval quiet
        = poll_wavespeed_task tid url max_wait poll_interval quiet)).
Proof.
  assert (∀ c urls tid urls1 later issued urls2 issued2,
            replicate.run_call c urls = (Return tid, urls1) →
            replicate.session later urls1 issued = (urls2, issued2) →
            ∃ url, urls2 !! tid = Some url ∧ url ≠ "" ∧
              replicate.poll_image vendor urls2 tid max_wait poll_interval fuel
              = replicate._poll_prediction vendor tid url max_wait poll_interval fuel ∧
              replicate.poll_video vendor urls2 tid max_wait poll_interval fuel
              = replicate._poll_prediction vendor tid url max_wait poll_interval fuel ∧
              ∀ o st, replicate._poll_prediction vendor tid url max_wait poll_interval fuel
                      = Some (o, st) →
                      ∀ v t k, o ≠ Raise (NoPollUrlStored v t k)) as Hrep.
  { intros c urls tid urls1 later issued urls2 issued2 Hc Hs.
    apply run_call_records in Hc as (url1 & Hu1 & _ & ->).
    destruct (session_keeps later (<[tid := url1]> urls) issued urls2 issued2 tid)
      as (url & Hl & Hu);
      [exists url1; by rewrite lookup_insert_eq | done |].
    exists url.
    destruct (poll_found vendor _ _ _ max_wait poll_interval fuel Hl Hu) as [Hi Hv].
    repeat split; try done.
    intros o st Hrun. by eapply poll_loop_knows_handle. }
  split; [|split; [|split]].
  - intros post prompt aspect_ratio resolution model urls tid urls1
      later issued urls2 issued2 Hsub Hs.
    destruct (Hrep (replicate.call_submit_image post prompt aspect_ratio resolution model)
                _ _ _ _ _ _ _ Hsub Hs) as (url & Hl & Hu & _ & Hv & Hnever).
    exists url. repeat split; try done. rewrite Hv. apply Hnever.
  - intros post prompt image_url model duration aspect_ratio urls tid urls1
      later issued urls2 issued2 Hsub Hs.
    destruct (Hrep (replicate.call_submit_video post prompt image_url model duration
                      aspect_ratio)
                _ _ _ _ _ _ _ Hsub Hs) as (url & Hl & Hu & Hi & _ & Hnever).
    exists url. repeat split; try done. rewrite Hi. apply Hnever.
  - intros sub pol prompt refs aspect_ratio resolution model urls tid urls1 Hsub.
    unfold wavespeed.submit_image in Hsub.
    destruct (dict_get wavespeed._IMAGE_MODELS model); [|by simplify_eq].
    destruct (sub _ _) as [[t u]|e]; simplify_eq.
    exists u. split; [by rewrite lookup_insert_eq|].
    intros Hu. unfold wavespeed.poll_video. rewrite lookup_insert_eq.
    apply nonempty_true in Hu. by rewrite Hu.
  - intros sub pol prompt image_url model duration aspect_ratio mode urls tid urls1 Hsub.
    unfold wavespeed.submit_video in Hsub.
    match type of Hsub with
    | context [if ?b then ?x else ?y] => destruct (if b then x else y) as [model_id|]
    end; [|by simplify_eq].
    destruct (wavespeed.video_payload _ _ _ _) as [payload|e]; simpl in Hsub;
      [|by simplify_eq].
    destruct (sub _ _) as [[t u]|e]; simplify_eq.
    exists u. split; [by rewrite lookup_insert_eq|].
    intros Hu. unfold wavespeed.poll_image. rewrite lookup_insert_eq.
    apply nonempty_true in Hu. by rewrite Hu.
Qed.

Lemma handles_shared_across_kinds_witness :
  ∃ url, (<["p1" := "https://api/p1"]> ∅ : gmap string string) !! "p1" = Some url ∧
    url ≠ "" ∧
    replicate.poll_video (λ _, always_processing) (<["p1" := "https://api/p1"]> ∅)
      "p1" 600 10 5
    = replicate._poll_prediction (λ _, always_processing) "p1" url 600 10 5 ∧
    ∀ o st, replicate.poll_video (λ _, always_processing) (<["p1" := "https://api/p1"]> ∅)
              "p1" 600 10 5 = Some (o, st) →
            ∀ v t k, o ≠ Raise (NoPollUrlStored v t k).
Proof.
  exact (proj1 (handles_shared_across_kinds (λ _, always_processing) 600 10 5 true)
           accepts_as_p1 "a cat" "9:16" "1K" "flux-schnell" ∅ "p1"
           (<["p1" := "https://api/p1"]> ∅) [] [] (<["p1" := "https://api/p1"]> ∅) []
           eq_refl eq_refl).
Defined.

(** * Further properties of the code *)

(** ** The registry *)

Lemma dict_get_elem_Forall {V : Type} (P : string * V → Prop) (d : list (string * V))
    (k : string) (v : V) :
  Forall P d → dict_get d k = Some v → P (k, v).
Proof.
  intros Hall Hget. apply dict_get_Some_elem in Hget.
  rewrite Forall_forall in Hall. by apply Hall.
Qed.

Lemma image_names_agree : Forall names_agree providers.IMAGE_PROVIDERS.
Proof. repeat constructor. Qed.

Lemma video_names_agree : Forall names_agree providers.VIDEO_PROVIDERS.
Proof. repeat constructor. Qed.

Lemma get_provider_returned kind catalog model provider_override m name :
  providers.get_provider kind catalog model provider_override = Return (m, name) →
  ∃ cfg, dict_get catalog model = Some cfg ∧
         name = providers.override_or provider_override (providers.default_provider cfg) ∧
         dict_get (providers.provider_map cfg) name = Some m.
Proof.
  unfold providers.get_provider. intros H.
  destruct (dict_get catalog model) as [cfg|]; [|done].
  simpl in H.
  destruct (dict_get (providers.provider_map cfg) _) as [m'|] eqn:Hp; [|done].
  simplify_eq. eauto.
Qed.

Lemma override_or_cases provider_override dflt :
  (provider_override = Some (providers.override_or provider_override dflt) ∧
   providers.override_or provider_override dflt ≠ "") ∨
  ((provider_override = None ∨ provider_override = Some "") ∧
   providers.override_or provider_override dflt = dflt).
Proof.
  destruct provider_override as [p|]; [|right; auto].
  destruct (decide (p = "")) as [->|Hp]; [right; auto|].
  left. by rewrite (override_or_nonempty _ _ Hp).
Qed.

(** X1. Whenever [get_image_provider] or [get_video_provider] returns, the
    returned name is the name of the returned module, and it is the
    override when that is a non-empty string and the model's default
    otherwise. *)
Theorem registry_result_consistent (model : string) (provider_override : option string)
    (m : providers.ProviderModule) (name : string) :
  providers.get_image_provider model provider_override = Return (m, name) ∨
  providers.get_video_provider model provider_override = Return (m, name) →
  name = module_name m ∧
  ((provider_override = Some name ∧ name ≠ "") ∨
   ((provider_override = None ∨ provider_override = Some "") ∧
    ∃ cfg, (dict_get providers.IMAGE_PROVIDERS model = Some cfg ∨
            dict_get providers.VIDEO_PROVIDERS model = Some cfg) ∧
           name = providers.default_provider cfg)).
Proof.
  assert (∀ kind catalog,
            Forall names_agree catalog →
            providers.get_provider kind catalog model provider_override = Return (m, name) →
            name = module_name m ∧
            ((provider_override = Some name ∧ name ≠ "") ∨
             ((provider_override = None ∨ provider_override = Some "") ∧
              ∃ cfg, dict_get catalog model = Some cfg ∧
                     name = providers.default_provider cfg))) as Hgen.
  { intros kind catalog Hagree H.
    apply get_provider_returned in H as (cfg & Hm & Hname & Hp).
    split.
    - pose proof (dict_get_elem_Forall _ _ _ _ Hagree Hm) as Hcfg.
      unfold names_agree in Hcfg. simpl in Hcfg.
      exact (dict_get_elem_Forall _ _ _ _ Hcfg Hp).
    - destruct (override_or_cases provider_override (providers.default_provider cfg))
        as [[Ho Hne]|[Ho Hd]]; rewrite <- Hname in *; [by left|].
      right. split; [done|]. eauto. }
  intros [H|H].
  - destruct (Hgen _ _ image_names_agree H) as [Hn [Ho|(Ho & cfg & Hm & Hd)]];
      split; auto. right. split; [done|]. exists cfg. auto.
  - destruct (Hgen _ _ video_names_agree H) as [Hn [Ho|(Ho & cfg & Hm & Hd)]];
      split; auto. right. split; [done|]. exists cfg. auto.
Qed.

Lemma registry_result_consistent_witness :
  "kie" = module_name providers.kie ∧
  ((Some "kie" = Some "kie" ∧ "kie" ≠ "") ∨
   ((Some "kie" = None ∨ Some "kie" = Some "") ∧
    ∃ cfg, (dict_get providers.IMAGE_PROVIDERS "nano-banana-pro" = Some cfg ∨
            dict_get providers.VIDEO_PROVIDERS "nano-banana-pro" = Some cfg) ∧
           "kie" = providers.default_provider cfg)).
Proof.
  apply (registry_result_consistent "nano-banana-pro" (Some "kie") providers.kie "kie").
  left. reflexivity.
Defined.

(** X2. For a model of the catalog, an override that is a key of the
    model's providers map selects the module stored under that key, also
    when it is not the default. *)
Theorem registry_override_selects (model p : string) (cfg : providers.ModelConfig)
    (m : providers.ProviderModule) :
  dict_get (providers.provider_map cfg) p = Some m →
  (dict_get providers.IMAGE_PROVIDERS model = Some cfg →
   providers.get_image_provider model (Some p) = Return (m, p)) ∧
  (dict_get providers.VIDEO_PROVIDERS model = Some cfg →
   providers.get_video_provider model (Some p) = Return (m, p)).
Proof.
  intros Hp.
  assert (∀ kind catalog,
            Forall names_agree catalog → dict_get catalog model = Some cfg →
            providers.get_provider kind catalog model (Some p) = Return (m, p)) as Hgen.
  { intros kind catalog Hagree Hm.
    assert (p ≠ "") as Hne.
    { pose proof (dict_get_elem_Forall _ _ _ _ Hagree Hm) as Hcfg.
      unfold names_agree in Hcfg. simpl in Hcfg.
      pose proof (dict_get_elem_Forall _ _ _ _ Hcfg Hp) as Hn. simpl in Hn.
      subst p. by destruct m. }
    unfold providers.get_provider. rewrite Hm.
    rewrite (override_or_nonempty _ _ Hne). by rewrite Hp. }
  split; apply Hgen; [apply image_names_agree | apply video_names_agree].
Qed.

Lemma registry_override_selects_witness :
  providers.get_video_provider "sora-2-pro" (Some "kie") = Return (providers.kie, "kie").
Proof.
  exact (proj2 (registry_override_selects "sora-2-pro" "kie"
                  {| providers.default_provider := "wavespeed";
                     providers.provider_map :=
                       [("kie", providers.kie); ("wavespeed", providers.wavespeed)] |}
                  providers.kie eq_refl) eq_refl).
Defined.

Lemma image_models_not_video :
  Forall (λ entry : string * providers.ModelConfig,
            dict_get providers.VIDEO_PROVIDERS entry.1 = None)
         providers.IMAGE_PROVIDERS.
Proof. repeat constructor. Qed.

Lemma video_models_not_image :
  Forall (λ entry : string * providers.ModelConfig,
            dict_get providers.IMAGE_PROVIDERS entry.1 = None)
         providers.VIDEO_PROVIDERS.
Proof. repeat constructor. Qed.

(** X3. The two catalogs share no model name: an image model given to
    [get_video_provider], or a video model given to [get_image_provider],
    is rejected as an unknown model whatever the override. *)
Theorem registry_kinds_disjoint (model : string) (provider_override : option string) :
  (is_Some (dict_get providers.IMAGE_PROVIDERS model) →
   providers.get_video_provider model provider_override
   = Raise (UnknownModel Video model (keys providers.VIDEO_PROVIDERS))) ∧
  (is_Some (dict_get providers.VIDEO_PROVIDERS model) →
   providers.get_image_provider model provider_override
   = Raise (UnknownModel Image model (keys providers.IMAGE_PROVIDERS))).
Proof.
  split; intros [cfg Hm]; apply get_provider_unknown_model.
  - exact (dict_get_elem_Forall _ _ _ _ image_models_not_video Hm).
  - exact (dict_get_elem_Forall _ _ _ _ video_models_not_image Hm).
Qed.

Lemma registry_kinds_disjoint_witness :
  providers.get_image_provider "veo-3.1" None
  = Raise (UnknownModel Image "veo-3.1" (keys providers.IMAGE_PROVIDERS)).
Proof.
  apply (proj2 (registry_kinds_disjoint "veo-3.1" None)). simpl. eauto.
Defined.

Lemma image_adapters_serve :
  Forall (adapters_serve replicate._IMAGE_MODELS wavespeed._IMAGE_MODELS)
         providers.IMAGE_PROVIDERS.
Proof. repeat constructor; simpl; (done || eauto). Qed.

Lemma video_adapters_serve :
  Forall (adapters_serve replicate._VIDEO_MODELS wavespeed._VIDEO_MODELS)
         providers.VIDEO_PROVIDERS.
Proof. repeat constructor; simpl; (done || eauto). Qed.

Lemma get_provider_served kind catalog replicate_models wavespeed_models
    model provider_override m name :
  Forall (adapters_serve replicate_models wavespeed_models) catalog →
  providers.get_provider kind catalog model provider_override = Return (m, name) →
  (m = providers.replicate → is_Some (dict_get replicate_models model)) ∧
  (m = providers.wavespeed → is_Some (dict_get wavespeed_models model)).
Proof.
  intros Hserve H. apply get_provider_returned in H as (cfg & Hm & _ & Hp).
  pose proof (dict_get_elem_Forall _ _ _ _ Hserve Hm) as Hcfg.
  unfold adapters_serve in Hcfg. simpl in Hcfg.
  exact (dict_get_elem_Forall _ _ _ _ Hcfg Hp).
Qed.

Lemma get_provider_name_agrees kind catalog model provider_override m name :
  Forall names_agree catalog →
  providers.get_provider kind catalog model provider_override = Return (m, name) →
  name = module_name m.
Proof.
  intros Hagree H. apply get_provider_returned in H as (cfg & Hm & _ & Hp).
  pose proof (dict_get_elem_Forall _ _ _ _ Hagree Hm) as Hcfg.
  unfold names_agree in Hcfg. simpl in Hcfg.
  exact (dict_get_elem_Forall _ _ _ _ Hcfg Hp).
Qed.

#[local] Arguments String.eqb : simpl never.

Lemma py_int_raises duration e :
  py_int duration = Raise e →
  (∀ n, duration ≠ IntValue n) ∧
  ((∃ msg, e = ValueError msg) ∨ (∃ msg, e = TypeError msg) ∨
   (∃ msg, e = OverflowError msg)).
Proof. destruct duration; simpl; intros H; simplify_eq; split; eauto; done. Qed.

(** What [_submit_prediction] can raise. *)
Lemma _submit_prediction_raises post model_path input_payload e :
  replicate._submit_prediction post model_path input_payload = Raise e →
  (∃ msg, e = RequestException msg) ∨
  (∃ response, post model_path (JDict [("input", input_payload)]) = Responded response ∧
               post_status_code response ≠ 200 ∧ post_status_code response ≠ 201 ∧
               e = ApiError (post_status_code response) (post_text response)) ∨
  e = JSONDecodeError ∨ e = AttributeError ∨ e = MissingIdOrPollUrl.
Proof.
  unfold replicate._submit_prediction. intros H.
  destruct (post _ _) as [response|msg]; [|simplify_eq; eauto].
  destruct (negb _) eqn:Hc.
  - simplify_eq. right. left. exists response.
    apply negb_true_iff, orb_false_iff in Hc as [H1 H2].
    apply Z.eqb_neq in H1, H2. done.
  - destruct (post_body response) as [[|task_id [| |[u|]]]|]; simplify_eq; auto 10.
    destruct (replicate.truthy_id task_id); [|simplify_eq; auto 10].
    destruct (nonempty u); simplify_eq; auto 10.
Qed.

(** What the end of a Replicate submission, from the POST on, can raise. *)
Lemma replicate_submit_raises post model_path input_payload urls e urls' :
  match replicate._submit_prediction post model_path input_payload with
  | Raise e => (Raise e, urls)
  | Return task_info => replicate.record_task task_info urls
  end = (Raise e, urls') →
  (∃ msg, e = RequestException msg) ∨
  (∃ code txt, code ≠ 200 ∧ code ≠ 201 ∧ e = ApiError code txt) ∨
  e = JSONDecodeError ∨ e = AttributeError ∨ e = MissingIdOrPollUrl ∨
  e = TypeError "unhashable type: 'list'" ∨ e = TypeError "unhashable type: 'dict'".
Proof.
  destruct (replicate._submit_prediction _ _ _) as [[key u]|e'] eqn:Hs; intros H.
  - apply record_task_spec in H as [_ [[_ ->]|[_ ->]]]; auto 10.
  - simplify_eq.
    apply _submit_prediction_raises in Hs as [?|[(r & _ & ? & ? & ->)|[?|[?|?]]]];
      eauto 10.
Qed.

Lemma _build_video_payload_raises prompt image_url model duration aspect_ratio e :
  replicate._build_video_payload prompt image_url model duration aspect_ratio = Raise e →
  (py_int duration = Raise e ∧ model ≠ "minimax-video") ∨
  (e = NoPayloadBuilder Replicate model ∧ dict_get replicate._VIDEO_MODELS model = None).
Proof.
  unfold replicate._build_video_payload. intros H.
  assert (∀ k : Z → Outcome json,
            (∀ d, ∃ payload, k d = Return payload) →
            (d ← py_int duration; k d) = Raise e → py_int duration = Raise e) as Hint.
  { intros k Hk Hb. destruct (py_int duration) as [d|e']; [|by simplify_eq/=].
    destruct (Hk d) as [payload Hp]. simpl in Hb. rewrite Hp in Hb. done. }
  destruct (String.eqb model "ltx-video") eqn:E1.
  { apply String.eqb_eq in E1. subst. left. split; [|done].
    eapply Hint; [|exact H]. eauto. }
  destruct (String.eqb model "wan-2.1") eqn:E2.
  { apply String.eqb_eq in E2. subst. left. split; [|done].
    eapply Hint; [|exact H]. eauto. }
  destruct (String.eqb model "cogvideox") eqn:E3.
  { apply String.eqb_eq in E3. subst. left. split; [|done].
    eapply Hint; [|exact H]. eauto. }
  destruct (String.eqb model "minimax-video") eqn:E4; [done|].
  simplify_eq. right. split; [done|].
  unfold replicate._VIDEO_MODELS. cbn [dict_get].
  rewrite (String.eqb_sym "ltx-video"), E1, (String.eqb_sym "wan-2.1"), E2,
    (String.eqb_sym "cogvideox"), E3, (String.eqb_sym "minimax-video"), E4.
  done.
Qed.

(** X4. The registry routes a model only to adapters that serve it: when
    it resolves a model to the Replicate or the WaveSpeed module, the model
    is a key of that adapter's table for the kind, so that Replicate's
    [submit_image] and [submit_video] never answer with "doesn't support
    ... model" or "No payload builder", and WaveSpeed's model lookup
    succeeds in either Kling mode. *)
Theorem registry_routes_to_serving_adapter (model : string)
    (provider_override : option string) (name : string) :
  (providers.get_image_provider model provider_override
   = Return (providers.replicate, name) →
   is_Some (dict_get replicate._IMAGE_MODELS model) ∧
   ∀ post prompt aspect_ratio resolution urls v k mdl avail,
     (replicate.submit_image post prompt aspect_ratio resolution model urls).1
     ≠ Raise (UnsupportedModel v k mdl avail)) ∧
  (providers.get_video_provider model provider_override
   = Return (providers.replicate, name) →
   is_Some (dict_get replicate._VIDEO_MODELS model) ∧
   ∀ post prompt image_url duration aspect_ratio urls v k mdl avail,
     (replicate.submit_video post prompt image_url model duration aspect_ratio urls).1
     ≠ Raise (UnsupportedModel v k mdl avail) ∧
     (replicate.submit_video post prompt image_url model duration aspect_ratio urls).1
     ≠ Raise (NoPayloadBuilder v mdl)) ∧
  (providers.get_image_provider model provider_override
   = Return (providers.wavespeed, name) →
   is_Some (dict_get wavespeed._IMAGE_MODELS model)) ∧
  (providers.get_video_provider model provider_override
   = Return (providers.wavespeed, name) →
   is_Some (dict_get wavespeed._VIDEO_MODELS model) ∧
   is_Some (dict_get wavespeed._VIDEO_MODELS "kling-3.0-std")).
Proof.
  split; [|split; [|split]].
  - intros H.
    destruct (get_provider_served _ _ _ _ _ _ _ _ image_adapters_serve H) as [Hr _].
    destruct (Hr eq_refl) as [path Hpath]. split; [eauto|].
    intros post prompt aspect_ratio resolution urls v k mdl avail.
    destruct (replicate.submit_image _ _ _ _ _ _) as [o urls'] eqn:Hm.
    unfold replicate.submit_image in Hm. rewrite Hpath in Hm.
    simpl. intros ->. apply replicate_submit_raises in Hm.
    by destruct Hm as [[? ?]|[(?&?&?&?&?)|[?|[?|[?|[?|?]]]]]].
  - intros H.
    destruct (get_provider_served _ _ _ _ _ _ _ _ video_adapters_serve H) as [Hr _].
    destruct (Hr eq_refl) as [path Hpath]. split; [eauto|].
    intros post prompt image_url duration aspect_ratio urls v k mdl avail.
    destruct (replicate.submit_video _ _ _ _ _ _ _) as [o urls'] eqn:Hm.
    unfold replicate.submit_video in Hm. rewrite Hpath in Hm.
    destruct (replicate._build_video_payload _ _ _ _ _) as [payload|e] eqn:Hb;
      simpl in Hm.
    + split; simpl; intros ->; apply replicate_submit_raises in Hm;
        by destruct Hm as [[? ?]|[(?&?&?&?&?)|[?|[?|[?|[?|?]]]]]].
    + injection Hm as <- _.
      apply _build_video_payload_raises in Hb as [[Hint _]|[_ Hnone]].
      * apply py_int_raises in Hint as [_ [[? ->]|[[? ->]|[? ->]]]]; by simpl.
      * rewrite Hpath in Hnone. done.
  - intros H.
    destruct (get_provider_served _ _ _ _ _ _ _ _ image_adapters_serve H) as [_ Hw].
    by apply Hw.
  - intros H.
    destruct (get_provider_served _ _ _ _ _ _ _ _ video_adapters_serve H) as [_ Hw].
    split; [by apply Hw | simpl; eauto].
Qed.

Lemma registry_routes_to_serving_adapter_witness :
  is_Some (dict_get replicate._VIDEO_MODELS "wan-2.1") ∧
  is_Some (dict_get wavespeed._IMAGE_MODELS "gpt-image-1.5").
Proof.
  split.
  - exact (proj1 (proj1 (proj2 (registry_routes_to_serving_adapter
                                  "wan-2.1" None "replicate")) eq_refl)).
  - exact (proj1 (proj2 (proj2 (registry_routes_to_serving_adapter
                                  "gpt-image-1.5" (Some "") "wavespeed"))) eq_refl).
Defined.

(** X5. [is_sync] is false for the Replicate and the WaveSpeed module
    whatever the generation type, known or not; so every provider that the
    registry returns under the name "replicate" or "wavespeed" has to be
    polled. *)
Theorem is_sync_false_for_async_adapters
    (other_flags : providers.ProviderModule → string → option bool)
    (generation_type : string) :
  is_sync other_flags providers.replicate generation_type = false ∧
  is_sync other_flags providers.wavespeed generation_type = false ∧
  ∀ model provider_override m name,
    providers.get_image_provider model provider_override = Return (m, name) ∨
    providers.get_video_provider model provider_override = Return (m, name) →
    name = "replicate" ∨ name = "wavespeed" →
    is_sync other_flags m generation_type = false.
Proof.
  assert (is_sync other_flags providers.replicate generation_type = false ∧
          is_sync other_flags providers.wavespeed generation_type = false) as [Hr Hw].
  { unfold is_sync, sync_attr. by repeat case_match. }
  split; [done|]. split; [done|].
  intros model provider_override m name H Hname.
  assert (name = module_name m) as ->.
  { destruct H as [H|H].
    - exact (get_provider_name_agrees _ _ _ _ _ _ image_names_agree H).
    - exact (get_provider_name_agrees _ _ _ _ _ _ video_names_agree H). }
  destruct m; simpl in Hname; destruct Hname; done.
Qed.

Lemma is_sync_false_for_async_adapters_witness :
  is_sync (λ _ _, Some true) providers.wavespeed "audio" = false.
Proof.
  refine (proj2 (proj2 (is_sync_false_for_async_adapters (λ _ _, Some true) "audio"))
            "kling-3.0" None providers.wavespeed "wavespeed" _ _).
  - right. reflexivity.
  - right. reflexivity.
Defined.

(** ** Submission *)

(** The end of a Replicate submission, from the POST on, when it returns. *)
Lemma replicate_submit_returns post model_path input_payload urls task_id urls' :
  match replicate._submit_prediction post model_path input_payload with
  | Raise e => (Raise e, urls)
  | Return task_info => replicate.record_task task_info urls
  end = (Return task_id, urls') →
  ∃ response poll_url,
    post model_path (JDict [("input", input_payload)]) = Responded response ∧
    (post_status_code response = 200 ∨ post_status_code response = 201) ∧
    post_body response
    = Some (BodyObject (IdStr task_id) (UrlsObject (Some poll_url))) ∧
    task_id ≠ "" ∧ poll_url ≠ "" ∧
    urls' = <[task_id := poll_url]> urls.
Proof.
  destruct (replicate._submit_prediction _ _ _) as [[key u]|e] eqn:Hs; [|done].
  intros H. apply record_task_spec in H as [-> ->].
  apply _submit_prediction_returns in Hs as (response & id & Hpost & Hc & Hb & Hk & Hu).
  apply truthy_id_str in Hk as [-> Ht]. by exists response, u.
Qed.

Lemma replicate_submit_raise_keeps post model_path input_payload urls e urls' :
  match replicate._submit_prediction post model_path input_payload with
  | Raise e => (Raise e, urls)
  | Return task_info => replicate.record_task task_info urls
  end = (Raise e, urls') →
  urls' = urls.
Proof.
  destruct (replicate._submit_prediction _ _ _) as [[key u]|e'] eqn:Hs; intros H.
  - by apply record_task_spec in H as [-> _].
  - by simplify_eq.
Qed.

(** X6. A Replicate submission that returns has sent its own request to
    the vendor: [submit_image] the prompt and the FLUX-normalised aspect
    ratio, [submit_video] the payload of [_build_video_payload], to the
    path that the adapter's table gives for the model.  The vendor accepted
    that request with 200 or 201; the returned id is the "id" of that
    response, non-empty, and the response's "get" URL, non-empty, is now
    stored under it, replacing any earlier entry for the id and leaving
    every other entry as it was.  A submission that raises leaves the
    dictionary as it was. *)
Theorem submit_records_vendor_answer (post : replicate.Post)
    (prompt aspect_ratio resolution model : string) (image_url : option string)
    (duration : IntArg) (urls urls' : gmap string string) (o : Outcome string) :
  (replicate.submit_image post prompt aspect_ratio resolution model urls = (o, urls') →
   (∀ e, o = Raise e → urls' = urls) ∧
   (∀ task_id, o = Return task_id →
      ∃ model_path fields response poll_url,
        dict_get replicate._IMAGE_MODELS model = Some model_path ∧
        dict_get fields "prompt" = Some (JStr prompt) ∧
        dict_get fields "aspect_ratio"
        = Some (JStr (replicate._map_aspect_ratio_flux aspect_ratio)) ∧
        post model_path (JDict [("input", JDict fields)]) = Responded response ∧
        (post_status_code response = 200 ∨ post_status_code response = 201) ∧
        post_body response
        = Some (BodyObject (IdStr task_id) (UrlsObject (Some poll_url))) ∧
        task_id ≠ "" ∧ poll_url ≠ "" ∧
        urls' !! task_id = Some poll_url ∧
        ∀ other, other ≠ task_id → urls' !! other = urls !! other)) ∧
  (replicate.submit_video post prompt image_url model duration aspect_ratio urls
   = (o, urls') →
   (∀ e, o = Raise e → urls' = urls) ∧
   (∀ task_id, o = Return task_id →
      ∃ model_path input_payload response poll_url,
        dict_get replicate._VIDEO_MODELS model = Some model_path ∧
        replicate._build_video_payload prompt image_url model duration aspect_ratio
        = Return input_payload ∧
        post model_path (JDict [("input", input_payload)]) = Responded response ∧
        (post_status_code response = 200 ∨ post_status_code response = 201) ∧
        post_body response
        = Some (BodyObject (IdStr task_id) (UrlsObject (Some poll_url))) ∧
        task_id ≠ "" ∧ poll_url ≠ "" ∧
        urls' !! task_id = Some poll_url ∧
        ∀ other, other ≠ task_id → urls' !! other = urls !! other)).
Proof.
  split; intros H.
  - unfold replicate.submit_image in H.
    destruct (dict_get replicate._IMAGE_MODELS model) as [path|] eqn:Hm;
      [|by simplify_eq].
    split.
    + intros e ->. by eapply replicate_submit_raise_keeps.
    + intros task_id ->.
      apply replicate_submit_returns
        in H as (response & u & Hpost & Hc & Hb & Ht & Hu & ->).
      eexists path, _, response, u.
      split; [done|]. split; [|split; [|split; [exact Hpost|]]].
      * reflexivity.
      * reflexivity.
      * split; [done|]. split; [done|]. split; [done|]. split; [done|].
        split; [apply lookup_insert_eq|].
        intros other Hne. by apply lookup_insert_ne.
  - unfold replicate.submit_video in H.
    destruct (dict_get replicate._VIDEO_MODELS model) as [path|] eqn:Hm;
      [|by simplify_eq].
    destruct (replicate._build_video_payload _ _ _ _ _) as [payload|e'] eqn:Hp;
      simpl in H; [|by simplify_eq].
    split.
    + intros e ->. by eapply replicate_submit_raise_keeps.
    + intros task_id ->.
      apply replicate_submit_returns
        in H as (response & u & Hpost & Hc & Hb & Ht & Hu & ->).
      exists path, payload, response, u.
      split; [done|]. split; [done|]. split; [done|]. split; [done|].
      split; [done|]. split; [done|]. split; [done|].
      split; [apply lookup_insert_eq|].
      intros other Hne. by apply lookup_insert_ne.
Qed.

Lemma submit_records_vendor_answer_witness :
  ∃ model_path input_payload response poll_url,
    dict_get replicate._VIDEO_MODELS "wan-2.1" = Some model_path ∧
    replicate._build_video_payload "a cat" None "wan-2.1" (IntValue 5) "9:16"
    = Return input_payload ∧
    accepts_as_p1 model_path (JDict [("input", input_payload)]) = Responded response ∧
    (post_status_code response = 200 ∨ post_status_code response = 201) ∧
    post_body response = Some (BodyObject (IdStr "p1") (UrlsObject (Some poll_url))) ∧
    "p1" ≠ "" ∧ poll_url ≠ "" ∧
    (<["p1" := "https://api/p1"]> (<["p1" := "https://api/old"]> ∅)
       : gmap string string) !! "p1" = Some poll_url ∧
    ∀ other, other ≠ "p1" →
      (<["p1" := "https://api/p1"]> (<["p1" := "https://api/old"]> ∅)
         : gmap string string) !! other
      = (<["p1" := "https://api/old"]> ∅ : gmap string string) !! other.
Proof.
  exact (proj2 (proj2 (submit_records_vendor_answer accepts_as_p1 "a cat" "9:16" "1K"
                         "wan-2.1" None (IntValue 5)
                         (<["p1" := "https://api/old"]> ∅)
                         (<["p1" := "https://api/p1"]> (<["p1" := "https://api/old"]> ∅))
                         (Return "p1")) eq_refl) "p1" eq_refl).
Defined.

(** X7. What the Replicate submissions can answer.  They raise "doesn't
    support ... model" exactly when the model is not a key of the adapter's
    table for the kind, and then whatever the vendor would have said.  An
    accepted (200 or 201) response whose body is not a JSON object, or whose
    "urls" is present and not an object, ends in an AttributeError.  Every
    exception is the unsupported model, a transport exception, an API error
    carrying a status code other than 200 and 201, a JSON decoding error, an
    AttributeError, a missing id or poll URL, the TypeError of storing
    under an unhashable id, or, for [submit_video] only and for a model
    other than "minimax-video", what [int(duration)] raised. *)
Theorem submit_outcomes (post : replicate.Post) (prompt aspect_ratio resolution model : string)
    (image_url : option string) (duration : IntArg) (urls : gmap string string) :
  let image := (replicate.submit_image post prompt aspect_ratio resolution model urls).1 in
  let video := (replicate.submit_video post prompt image_url model duration
                  aspect_ratio urls).1 in
  (dict_get replicate._IMAGE_MODELS model = None ↔
   image = Raise (UnsupportedModel Replicate Image model ["flux-schnell"; "flux-dev"])) ∧
  (dict_get replicate._VIDEO_MODELS model = None ↔
   video = Raise (UnsupportedModel Replicate Video model
                    ["ltx-video"; "wan-2.1"; "cogvideox"; "minimax-video"])) ∧
  (∀ model_path input_payload response,
     post model_path (JDict [("input", input_payload)]) = Responded response →
     post_status_code response = 200 ∨ post_status_code response = 201 →
     post_body response = Some BodyNotObject ∨
     (∃ task_id, post_body response = Some (BodyObject task_id UrlsNotObject)) →
     replicate._submit_prediction post model_path input_payload = Raise AttributeError) ∧
  (∀ e, image = Raise e →
     (∃ v k mdl avail, e = UnsupportedModel v k mdl avail) ∨
     (∃ msg, e = RequestException msg) ∨
     (∃ code txt, code ≠ 200 ∧ code ≠ 201 ∧ e = ApiError code txt) ∨
     e = JSONDecodeError ∨ e = AttributeError ∨ e = MissingIdOrPollUrl ∨
     e = TypeError "unhashable type: 'list'" ∨
     e = TypeError "unhashable type: 'dict'") ∧
  (∀ e, video = Raise e →
     (∃ v k mdl avail, e = UnsupportedModel v k mdl avail) ∨
     (∃ msg, e = RequestException msg) ∨
     (∃ code txt, code ≠ 200 ∧ code ≠ 201 ∧ e = ApiError code txt) ∨
     e = JSONDecodeError ∨ e = AttributeError ∨ e = MissingIdOrPollUrl ∨
     e = TypeError "unhashable type: 'list'" ∨
     e = TypeError "unhashable type: 'dict'" ∨
     (py_int duration = Raise e ∧ model ≠ "minimax-video" ∧
      ((∃ msg, e = ValueError msg) ∨ (∃ msg, e = TypeError msg) ∨
       (∃ msg, e = OverflowError msg)))).
Proof.
  intros image video.
  destruct (replicate.submit_image _ _ _ _ _ _) as [oi urlsi] eqn:Hi.
  destruct (replicate.submit_video _ _ _ _ _ _ _) as [ov urlsv] eqn:Hv.
  subst image video. cbn [fst].
  unfold replicate.submit_image in Hi. unfold replicate.submit_video in Hv.
  split; [|split; [|split; [|split]]].
  - destruct (dict_get replicate._IMAGE_MODELS model) as [path|] eqn:Hm.
    + split; [done|]. intros ->. apply replicate_submit_raises in Hi.
      by destruct Hi as [[? ?]|[(?&?&?&?&?)|[?|[?|[?|[?|?]]]]]].
    + by simplify_eq.
  - destruct (dict_get replicate._VIDEO_MODELS model) as [path|] eqn:Hm.
    + split; [done|]. intros ->.
      destruct (replicate._build_video_payload _ _ _ _ _) as [payload|e] eqn:Hb;
        simpl in Hv.
      * apply replicate_submit_raises in Hv.
        by destruct Hv as [[? ?]|[(?&?&?&?&?)|[?|[?|[?|[?|?]]]]]].
      * injection Hv as -> _.
        apply _build_video_payload_raises in Hb as [[Hint _]|[? _]]; [|done].
        by apply py_int_raises in Hint as [_ [[? ?]|[[? ?]|[? ?]]]].
    + by simplify_eq.
  - intros model_path input_payload response Hpost Hc Hb.
    unfold replicate._submit_prediction. rewrite Hpost.
    assert (negb ((post_status_code response =? 200)
                  || (post_status_code response =? 201)) = false) as ->.
    { apply negb_false_iff, orb_true_iff.
      destruct Hc as [Hc|Hc]; [left|right]; by apply Z.eqb_eq. }
    by destruct Hb as [->|[task_id ->]].
  - intros e ->.
    destruct (dict_get replicate._IMAGE_MODELS model) as [path|];
      [|simplify_eq; left; eauto 10].
    right. by eapply replicate_submit_raises.
  - intros e ->.
    destruct (dict_get replicate._VIDEO_MODELS model) as [path|] eqn:Hm;
      [|simplify_eq; left; eauto 10].
    right.
    destruct (replicate._build_video_payload _ _ _ _ _) as [payload|e'] eqn:Hb;
      simpl in Hv.
    + apply replicate_submit_raises in Hv.
      destruct Hv as [?|[?|[?|[?|[?|[?|?]]]]]]; auto 10.
    + injection Hv as -> _.
      apply _build_video_payload_raises in Hb as [[Hint Hmm]|[_ Hnone]].
      * do 7 right. split; [done|]. split; [done|].
        by apply py_int_raises in Hint as [_ ?].
      * rewrite Hm in Hnone. done.
Qed.

Lemma submit_outcomes_witness :
  (replicate.submit_image accepts_as_p1 "a cat" "9:16" "1K" "dall-e" ∅).1
  = Raise (UnsupportedModel Replicate Image "dall-e" ["flux-schnell"; "flux-dev"]).
Proof.
  exact (proj1 (proj1 (submit_outcomes accepts_as_p1 "a cat" "9:16" "1K" "dall-e"
                         None (IntValue 5) ∅)) eq_refl).
Defined.

#[local] Arguments String.eqb : simpl nomatch.

(** The aspect ratios that FLUX accepts. *)
Lemma flux_mapping_entries :
  Forall (λ kv : string * string,
            kv.1 = kv.2 ∧ kv.2 ∈ ["9:16"; "16:9"; "1:1"; "2:3"; "3:2"; "4:5"])
         [ ("9:16", "9:16"); ("16:9", "16:9"); ("1:1", "1:1");
           ("2:3", "2:3"); ("3:2", "3:2"); ("4:5", "4:5") ].
Proof. repeat constructor. Qed.

(** X8. [_map_aspect_ratio_flux] always yields one of the six aspect
    ratios in its table: it leaves those six as they are and sends every
    other string to "9:16".  It is therefore idempotent, and submitting an
    image with a ratio or with its mapped ratio is the same submission. *)
Theorem flux_aspect_ratio_normalised (aspect_ratio : string) :
  let accepted := ["9:16"; "16:9"; "1:1"; "2:3"; "3:2"; "4:5"] in
  let mapped := replicate._map_aspect_ratio_flux aspect_ratio in
  mapped ∈ accepted ∧
  (aspect_ratio ∈ accepted → mapped = aspect_ratio) ∧
  (aspect_ratio ∉ accepted → mapped = "9:16") ∧
  replicate._map_aspect_ratio_flux mapped = mapped ∧
  ∀ post prompt resolution model urls,
    replicate.submit_image post prompt mapped resolution model urls
    = replicate.submit_image post prompt aspect_ratio resolution model urls.
Proof.
  intros accepted mapped.
  assert (∀ a, replicate._map_aspect_ratio_flux a ∈ accepted ∧
               (a ∈ accepted → replicate._map_aspect_ratio_flux a = a) ∧
               (a ∉ accepted → replicate._map_aspect_ratio_flux a = "9:16")) as Hmap.
  { intros a. unfold replicate._map_aspect_ratio_flux.
    destruct (dict_get _ a) as [v|] eqn:Hget; simpl.
    - destruct (dict_get_elem_Forall _ _ _ _ flux_mapping_entries Hget) as [Heq Hin].
      simpl in *. subst v. repeat split; try done; intros Hnot; by destruct Hnot.
    - split; [repeat constructor|]. split; [|done].
      intros Hin. apply dict_get_None_keys in Hget. by destruct Hget. }
  destruct (Hmap aspect_ratio) as (Hin & Hid & Hdef).
  assert (replicate._map_aspect_ratio_flux mapped = mapped) as Hidem.
  { by apply (Hmap mapped). }
  repeat split; try done.
  intros post prompt resolution model urls. unfold replicate.submit_image.
  fold mapped. by rewrite Hidem.
Qed.

Lemma flux_aspect_ratio_normalised_witness :
  replicate._map_aspect_ratio_flux "21:9" = "9:16".
Proof.
  apply (proj1 (proj2 (proj2 (flux_aspect_ratio_normalised "21:9")))).
  intros H. repeat (apply elem_of_cons in H as [H|H]; [discriminate|]).
  by apply not_elem_of_nil in H.
Defined.

Lemma prefix_sora_not_kling (model : string) :
  String.prefix "sora" model = true → String.prefix "kling" model = false.
Proof.
  destruct model as [|b s]; [done|]. cbn [String.prefix].
  destruct (Ascii.ascii_dec _ b) as [<-|]; [|done]. intros _.
  by destruct (Ascii.ascii_dec _ _).
Qed.

Lemma wavespeed_video_models_have_builder :
  Forall (λ kv : string * string,
            String.prefix "kling" kv.1 = true ∨ String.prefix "sora" kv.1 = true)
         wavespeed._VIDEO_MODELS.
Proof.
  unfold wavespeed._VIDEO_MODELS.
  repeat (apply List.Forall_cons; [(left; reflexivity) || (right; reflexivity)|]).
  apply List.Forall_nil.
Qed.

(** X9. "No payload builder" is dead code in both adapters.  Replicate's
    [submit_video] never raises it, whatever its arguments; and every model
    for which WaveSpeed's model lookup succeeds, in either Kling mode, has
    a name starting with "kling" or "sora", so that the payload branch of
    WaveSpeed's [submit_video] never reaches its [else]. *)
Theorem payload_builder_always_found (model mode : string) :
  (∀ post prompt image_url duration aspect_ratio urls v mdl,
     (replicate.submit_video post prompt image_url model duration aspect_ratio urls).1
     ≠ Raise (NoPayloadBuilder v mdl)) ∧
  (is_Some (if String.eqb model "kling-3.0" && String.eqb mode "std"
            then dict_get wavespeed._VIDEO_MODELS "kling-3.0-std"
            else dict_get wavespeed._VIDEO_MODELS model) →
   (String.prefix "kling" model = true ∨ String.prefix "sora" model = true) ∧
   ∀ prompt image_url duration v mdl,
     wavespeed.video_payload prompt image_url model duration
     ≠ Raise (NoPayloadBuilder v mdl)).
Proof.
  split.
  - intros post prompt image_url duration aspect_ratio urls v mdl.
    destruct (replicate.submit_video _ _ _ _ _ _ _) as [o urls'] eqn:Hv.
    unfold replicate.submit_video in Hv. cbn [fst]. intros ->.
    destruct (dict_get replicate._VIDEO_MODELS model) as [path|] eqn:Hm; [|done].
    destruct (replicate._build_video_payload _ _ _ _ _) as [payload|e] eqn:Hb;
      simpl in Hv.
    + apply replicate_submit_raises in Hv.
      by destruct Hv as [[? ?]|[(?&?&?&?&?)|[?|[?|[?|[?|?]]]]]].
    + injection Hv as -> _.
      apply _build_video_payload_raises in Hb as [[Hint _]|[_ Hnone]].
      * by apply py_int_raises in Hint as [_ [[? ?]|[[? ?]|[? ?]]]].
      * rewrite Hm in Hnone. done.
  - intros Hsome.
    assert (String.prefix "kling" model = true ∨ String.prefix "sora" model = true)
      as Hprefix.
    { destruct (String.eqb model "kling-3.0") eqn:Hk.
      - apply String.eqb_eq in Hk. subst. by left.
      - simpl in Hsome. destruct Hsome as [id Hid].
        exact (dict_get_elem_Forall _ _ _ _ wavespeed_video_models_have_builder Hid). }
    split; [done|]. intros prompt image_url duration v mdl.
    unfold wavespeed.video_payload.
    destruct Hprefix as [Hp|Hp].
    + rewrite Hp. by destruct duration.
    + rewrite (prefix_sora_not_kling _ Hp), Hp. by destruct duration.
Qed.

Lemma payload_builder_always_found_witness :
  (String.prefix "kling" "kling-3.0" = true ∨ String.prefix "sora" "kling-3.0" = true) ∧
  ∀ prompt image_url duration v mdl,
    wavespeed.video_payload prompt image_url "kling-3.0" duration
    ≠ Raise (NoPayloadBuilder v mdl).
Proof.
  apply (proj2 (payload_builder_always_found "kling-3.0" "std")). simpl. eauto.
Defined.

(** X10. A video payload built for Replicate carries the prompt, and its
    frame count, when it has one, respects the model's cap: at most 257 for
    "ltx-video", 81 for "wan-2.1", 49 for "cogvideox", and positive for a
    positive duration; the payload for "minimax-video" has no frame count
    and does not depend on the duration. *)
Theorem video_num_frames_capped (prompt : string) (image_url : option string)
    (model : string) (d : Z) (aspect_ratio : string) (payload : json) :
  replicate._build_video_payload prompt image_url model (IntValue d) aspect_ratio
  = Return payload →
  ∃ fields, payload = JDict fields ∧
    dict_get fields "prompt" = Some (JStr prompt) ∧
    (model = "minimax-video" →
     dict_get fields "num_frames" = None ∧
     ∀ duration, replicate._build_video_payload prompt image_url model duration aspect_ratio
                 = Return payload) ∧
    (model ≠ "minimax-video" →
     ∃ n, dict_get fields "num_frames" = Some (JNum n) ∧
          n ≤ 257 ∧ (0 < d → 0 < n) ∧
          (model = "wan-2.1" → n ≤ 81) ∧ (model = "cogvideox" → n ≤ 49)).
Proof.
  unfold replicate._build_video_payload. intros H.
  destruct (String.eqb model "ltx-video") eqn:E1.
  { apply String.eqb_eq in E1. subst model. simpl in H. simplify_eq.
    eexists. split; [done|]. split; [done|]. split; [done|]. intros _.
    eexists. split; [reflexivity|]. repeat split; try done; lia. }
  destruct (String.eqb model "wan-2.1") eqn:E2.
  { apply String.eqb_eq in E2. subst model. simpl in H. simplify_eq.
    eexists. split; [done|]. split; [done|]. split; [done|]. intros _.
    eexists. split; [reflexivity|]. repeat split; try done; lia. }
  destruct (String.eqb model "cogvideox") eqn:E3.
  { apply String.eqb_eq in E3. subst model. simpl in H. simplify_eq.
    eexists. split; [done|]. split; [done|]. split; [done|]. intros _.
    eexists. split; [reflexivity|]. repeat split; try done; lia. }
  destruct (String.eqb model "minimax-video") eqn:E4; [|done].
  apply String.eqb_eq in E4. subst model. simplify_eq.
  eexists. split; [done|]. split; [done|]. split; [|done]. intros _.
  split; [by destruct image_url as [u|]; simpl; [destruct (nonempty u)|]|done].
Qed.

Lemma video_num_frames_capped_witness :
  ∃ fields,
    JDict [("prompt", JStr "a cat"); ("num_frames", JNum 81)] = JDict fields ∧
    dict_get fields "prompt" = Some (JStr "a cat") ∧
    ("wan-2.1" = "minimax-video" →
     dict_get fields "num_frames" = None ∧
     ∀ duration, replicate._build_video_payload "a cat" None "wan-2.1" duration "9:16"
                 = Return (JDict [("prompt", JStr "a cat"); ("num_frames", JNum 81)])) ∧
    ("wan-2.1" ≠ "minimax-video" →
     ∃ n, dict_get fields "num_frames" = Some (JNum n) ∧
          n ≤ 257 ∧ (0 < 30 → 0 < n) ∧
          ("wan-2.1" = "wan-2.1" → n ≤ 81) ∧ ("wan-2.1" = "cogvideox" → n ≤ 49)).
Proof.
  exact (video_num_frames_capped "a cat" None "wan-2.1" 30 "9:16"
           (JDict [("prompt", JStr "a cat"); ("num_frames", JNum 81)]) eq_refl).
Defined.

(** X11. WaveSpeed's [submit_video] reads [mode] for the model "kling-3.0"
    only, and there only whether it is "std": submitting "kling-3.0" in
    mode "std" is the same as submitting the model "kling-3.0-std" in any
    mode; for "kling-3.0" all modes other than "std" are the same; and for
    every other model the mode makes no difference. *)
Theorem wavespeed_kling_mode (submit_wavespeed_task : wavespeed.SubmitHelper)
    (prompt : string) (image_url : option string) (model : string)
    (duration : IntArg) (aspect_ratio mode mode' : string)
    (urls : gmap string string) :
  wavespeed.submit_video submit_wavespeed_task prompt image_url "kling-3.0" duration
    aspect_ratio "std" urls
  = wavespeed.submit_video submit_wavespeed_task prompt image_url "kling-3.0-std" duration
      aspect_ratio mode urls ∧
  (mode ≠ "std" → mode' ≠ "std" →
   wavespeed.submit_video submit_wavespeed_task prompt image_url "kling-3.0" duration
     aspect_ratio mode urls
   = wavespeed.submit_video submit_wavespeed_task prompt image_url "kling-3.0" duration
       aspect_ratio mode' urls) ∧
  (model ≠ "kling-3.0" →
   wavespeed.submit_video submit_wavespeed_task prompt image_url model duration
     aspect_ratio mode urls
   = wavespeed.submit_video submit_wavespeed_task prompt image_url model duration
       aspect_ratio mode' urls).
Proof.
  split; [reflexivity|]. split.
  - intros Hm Hm'. unfold wavespeed.submit_video.
    apply String.eqb_neq in Hm, Hm'. by rewrite Hm, Hm', !andb_false_r.
  - intros Hne. unfold wavespeed.submit_video.
    apply String.eqb_neq in Hne. by rewrite Hne.
Qed.

Lemma wavespeed_kling_mode_witness :
  wavespeed.submit_video (λ _ _, Return ("w1", "https://ws/w1")) "a cat" None "sora-2"
    (IntValue 5) "9:16" "std" ∅
  = wavespeed.submit_video (λ _ _, Return ("w1", "https://ws/w1")) "a cat" None "sora-2"
      (IntValue 5) "9:16" "pro" ∅.
Proof.
  apply (proj2 (proj2 (wavespeed_kling_mode (λ _ _, Return ("w1", "https://ws/w1"))
                         "a cat" None "sora-2" (IntValue 5) "9:16" "std" "pro" ∅))).
  discriminate.
Defined.



(** ** The poll loop, beyond the claims *)

Lemma str_eq_true (v : json) (s : string) : str_eq v s = true → v = JStr s.
Proof.
  destruct v; simpl; try done. intros H. apply String.eqb_eq in H. by subst.
Qed.

(** How one pass through the loop body can leave the function. *)
Lemma poll_body_stop task_id poll_interval st t o st' :
  replicate.poll_body task_id poll_interval st t = Stop o st' →
  requests st' = requests st ∧ elapsed st' = elapsed st ∧
  ((∃ response data url,
      t = Responded response ∧ status_code response = 200 ∧
      body response = Some (JDict data) ∧
      dict_get data "status" = Some (JStr "succeeded") ∧
      o = Return (Success task_id url) ∧
      ((∃ rest, json_get data "output" = JList (url :: rest)) ∨
       (∃ s, json_get data "output" = JStr s ∧ s ≠ "" ∧ url = JStr s))) ∨
   (∃ text, o = Raise (PollFailedAfterRetries text)) ∨
   (∃ data, o = Raise (NoUsableOutput data)) ∨
   (∃ status error, (status = "failed" ∨ status = "canceled") ∧
                    o = Raise (PredictionFailed (JStr status) error)) ∨
   (∃ msg, o = Raise (RequestException msg)) ∨
   o = Raise JSONDecodeError ∨ o = Raise AttributeError ∨
   (poll_interval < 0 ∧ o = Raise (ValueError "sleep length must be non-negative"))).
Proof.
  unfold replicate.poll_body. intros H.
  assert (∀ P : Prop, P → requests st = requests st ∧ elapsed st = elapsed st ∧ P)
    as Hsame by done.
  destruct t as [response|msg]; [|simplify_eq; apply Hsame; eauto 12].
  destruct (negb (status_code response =? 200)) eqn:Hc.
  { destruct (10 <? _); [simplify_eq; apply Hsame; eauto 12|].
    unfold sleep in H. simpl in H.
    destruct (poll_interval <? 0) eqn:Hp; [|done].
    apply Z.ltb_lt in Hp. simplify_eq. apply Hsame. auto 12. }
  apply negb_false_iff, Z.eqb_eq in Hc.
  destruct (body response) as [data|] eqn:Hb; [|simplify_eq; apply Hsame; auto 12].
  destruct data as [| | | | | |data]; try (simplify_eq; apply Hsame; auto 12).
  destruct (str_eq _ "succeeded") eqn:Hs.
  { apply str_eq_true in Hs.
    assert (dict_get data "status" = Some (JStr "succeeded")) as Hstatus.
    { destruct (dict_get data "status"); simpl in Hs; by simplify_eq. }
    destruct (json_get data "output") as [| | | |s|out|] eqn:Ho;
      try (simplify_eq; apply Hsame; eauto 12).
    - destruct (nonempty s) eqn:Hne; [|simplify_eq; apply Hsame; eauto 12].
      apply nonempty_true in Hne. simplify_eq. apply Hsame.
      left. exists response, data, (JStr s). repeat split; eauto.
    - destruct out as [|url rest]; [simplify_eq; apply Hsame; eauto 12|].
      simplify_eq. apply Hsame.
      left. exists response, data, url. repeat split; eauto. }
  destruct (str_eq _ "failed" || str_eq _ "canceled") eqn:Hf.
  { simplify_eq. apply Hsame. do 3 right. left.
    apply orb_true_iff in Hf as [Hf|Hf]; apply str_eq_true in Hf; rewrite Hf; eauto. }
  unfold sleep in H. simpl in H.
  destruct (poll_interval <? 0) eqn:Hp; [|done].
  apply Z.ltb_lt in Hp. simplify_eq. apply Hsame. auto 12.
Qed.

Lemma poll_loop_outcome env task_id max_wait poll_interval fuel st o st' :
  replicate.poll_loop env task_id max_wait poll_interval fuel st = Some (o, st') →
  (o = Raise (PollTimeout max_wait) ∧ max_wait ≤ elapsed st') ∨
  ((0 < requests st')%nat ∧
   ∃ st0, replicate.poll_body task_id poll_interval st0
            (get env (pred (requests st'))) = Stop o st').
Proof.
  revert st. induction fuel as [|fuel IH]; intros st H; [done|].
  simpl in H. destruct (elapsed st <? max_wait) eqn:E.
  - destruct (replicate.poll_body _ _ _ _) as [st1|o1 st1] eqn:Hb; [by eapply IH|].
    simplify_eq. right.
    pose proof (poll_body_stop _ _ _ _ _ _ Hb) as (Hreq & _ & _). simpl in Hreq.
    rewrite Hreq. split; [lia|]. simpl. eauto.
  - simplify_eq. apply Z.ltb_ge in E. by left.
Qed.

(** X13. A [Success] is never made up: whenever [_poll_prediction] returns
    a result, the result is a [Success] carrying the task id it was given,
    the last GET was answered 200 with the status "succeeded", and the
    result URL is the first element of that response's output list or its
    non-empty output string. *)
Theorem poll_success_sound (vendor : string → PollEnv) (task_id poll_url : string)
    (max_wait poll_interval : Z) (fuel : nat) (r : GenerationResult) (st : LoopState) :
  replicate._poll_prediction vendor task_id poll_url max_wait poll_interval fuel
  = Some (Return r, st) →
  (0 < requests st)%nat ∧
  ∃ response data url,
    get (vendor poll_url) (pred (requests st)) = Responded response ∧
    status_code response = 200 ∧ body response = Some (JDict data) ∧
    dict_get data "status" = Some (JStr "succeeded") ∧
    r = Success task_id url ∧
    ((∃ rest, json_get data "output" = JList (url :: rest)) ∨
     (∃ s, json_get data "output" = JStr s ∧ s ≠ "" ∧ url = JStr s)).
Proof.
  unfold replicate._poll_prediction. intros H.
  apply poll_loop_outcome in H as [[? _]|(Hpos & st0 & Hb)]; [done|].
  split; [done|].
  apply poll_body_stop in Hb
    as (_ & _ & [(response & data & url & Ht & Hc & Hbody & Hs & Ho & Hout)
                |[[? ?]|[[? ?]|[(? & ? & _ & ?)|[[? ?]|[?|[?|[_ ?]]]]]]]]); try done.
  simplify_eq. exists response, data, url. done.
Qed.

Lemma poll_success_sound_witness :
  (0 < 22)%nat ∧
  ∃ response data url,
    get flaky_vendor (pred 22) = Responded response ∧
    status_code response = 200 ∧ body response = Some (JDict data) ∧
    dict_get data "status" = Some (JStr "succeeded") ∧
    Success "task" (JStr "https://cdn/v.mp4") = Success "task" url ∧
    ((∃ rest, json_get data "output" = JList (url :: rest)) ∨
     (∃ s, json_get data "output" = JStr s ∧ s ≠ "" ∧ url = JStr s)).
Proof.
  exact (poll_success_sound (λ _, flaky_vendor) "task" "url" 300 5 30
           (Success "task" (JStr "https://cdn/v.mp4"))
           {| requests := 22; retry_count := 0; elapsed := 105 |} eq_refl).
Defined.

(** X14. What [_poll_prediction] can raise: the timeout naming
    [max_wait]; "Poll failed after retries"; "No usable output";
    "prediction failed" or "canceled"; an exception of the transport or of
    JSON decoding or of reading a non-object body; and the error of a
    negative sleep, which needs a negative [poll_interval].  In particular
    it raises no registry or submission error. *)
Theorem poll_exceptions (vendor : string → PollEnv) (task_id poll_url : string)
    (max_wait poll_interval : Z) (fuel : nat) (e : exn) (st : LoopState) :
  replicate._poll_prediction vendor task_id poll_url max_wait poll_interval fuel
  = Some (Raise e, st) →
  (e = PollTimeout max_wait ∧ max_wait ≤ elapsed st) ∨
  (∃ text, e = PollFailedAfterRetries text) ∨
  (∃ data, e = NoUsableOutput data) ∨
  (∃ status error, (status = "failed" ∨ status = "canceled") ∧
                   e = PredictionFailed (JStr status) error) ∨
  (∃ msg, e = RequestException msg) ∨
  e = JSONDecodeError ∨ e = AttributeError ∨
  (poll_interval < 0 ∧ e = ValueError "sleep length must be non-negative").
Proof.
  unfold replicate._poll_prediction. intros H.
  apply poll_loop_outcome in H as [[[= ->] ?]|(_ & st0 & Hb)]; [by left|].
  right.
  apply poll_body_stop in Hb
    as (_ & _ & [(? & ? & ? & _ & _ & _ & _ & ? & _)
                |[[? ?]|[[? ?]|[(? & ? & ? & ?)|[[? ?]|[?|[?|[? ?]]]]]]]]);
    simplify_eq; eauto 12.
Qed.

Lemma poll_exceptions_witness :
  (PollFailedAfterRetries "unavailable" = PollTimeout 300 ∧ 300 ≤ 50) ∨
  (∃ text, PollFailedAfterRetries "unavailable" = PollFailedAfterRetries text) ∨
  (∃ data, PollFailedAfterRetries "unavailable" = NoUsableOutput data) ∨
  (∃ status error, (status = "failed" ∨ status = "canceled") ∧
                   PollFailedAfterRetries "unavailable"
                   = PredictionFailed (JStr status) error) ∨
  (∃ msg, PollFailedAfterRetries "unavailable" = RequestException msg) ∨
  PollFailedAfterRetries "unavailable" = JSONDecodeError ∨
  PollFailedAfterRetries "unavailable" = AttributeError ∨
  (5 < 0 ∧ PollFailedAfterRetries "unavailable"
           = ValueError "sleep length must be non-negative").
Proof.
  exact (poll_exceptions (λ _, always_unavailable) "task" "url" 300 5 12
           (PollFailedAfterRetries "unavailable")
           {| requests := 11; retry_count := 11; elapsed := 50 |} eq_refl).
Defined.

(** X15. When the loop, still within [max_wait], gets a 200 response whose
    status is "failed" or "canceled", it raises at once, without sleeping
    or polling again and whatever the retry count: the error carries the
    status and the response's "error" value, or the status again when that
    value is absent, null or empty. *)
Theorem poll_vendor_failure (env : PollEnv) (task_id : string)
    (max_wait poll_interval : Z) (fuel : nat) (st : LoopState)
    (response : Response) (data : list (string * json)) (status : string) :
  elapsed st < max_wait →
  get env (requests st) = Responded response →
  status_code response = 200 →
  body response = Some (JDict data) →
  dict_get data "status" = Some (JStr status) →
  status = "failed" ∨ status = "canceled" →
  ∃ error,
    replicate.poll_loop env task_id max_wait poll_interval (S fuel) st
    = Some (Raise (PredictionFailed (JStr status) error),
            {| requests := S (requests st); retry_count := 0;
               elapsed := elapsed st + latency env (requests st) |}) ∧
    (truthy (json_get data "error") = true → error = json_get data "error") ∧
    (truthy (json_get data "error") = false → error = JStr status).
Proof.
  intros Hel Hget Hc Hbody Hstatus Hfc.
  exists (py_or (json_get data "error") (JStr status)). split.
  - apply Z.ltb_lt in Hel. cbn [replicate.poll_loop]. rewrite Hel, Hget.
    unfold replicate.poll_body. rewrite Hc, Hbody, Hstatus.
    by destruct Hfc as [->| ->].
  - unfold py_or. by destruct (truthy _).
Qed.

Lemma poll_vendor_failure_witness :
  ∃ error,
    replicate.poll_loop
      {| get := λ _, Responded {| status_code := 200; text := "";
                                  body := Some (JDict [("status", JStr "canceled");
                                                       ("error", JNull)]) |};
         latency := λ _, 2 |}
      "task" 300 5 1 {| requests := 4; retry_count := 7; elapsed := 40 |}
    = Some (Raise (PredictionFailed (JStr "canceled") error),
            {| requests := 5; retry_count := 0; elapsed := 40 + 2 |}) ∧
    (truthy (json_get [("status", JStr "canceled"); ("error", JNull)] "error") = true →
     error = json_get [("status", JStr "canceled"); ("error", JNull)] "error") ∧
    (truthy (json_get [("status", JStr "canceled"); ("error", JNull)] "error") = false →
     error = JStr "canceled").
Proof.
  refine (poll_vendor_failure
            {| get := λ _, Responded {| status_code := 200; text := "";
                                        body := Some (JDict [("status", JStr "canceled");
                                                             ("error", JNull)]) |};
               latency := λ _, 2 |}
            "task" 300 5 0 {| requests := 4; retry_count := 7; elapsed := 40 |}
            _ _ "canceled" _ eq_refl eq_refl eq_refl eq_refl _).
  - simpl. lia.
  - by right.
Defined.

(** At the loop test, with a positive interval and GETs that take no
    negative time, every GET made so far was followed by a sleep, and the
    last one was made before the deadline. *)
Lemma poll_loop_requests env task_id max_wait poll_interval fuel st o st' :
  0 < poll_interval →
  (∀ k, 0 ≤ latency env k) →
  Z.of_nat (requests st) * poll_interval ≤ elapsed st →
  (requests st = 0%nat ∨ (Z.of_nat (requests st) - 1) * poll_interval < max_wait) →
  replicate.poll_loop env task_id max_wait poll_interval fuel st = Some (o, st') →
  (requests st' = 0%nat ∨ (Z.of_nat (requests st') - 1) * poll_interval < max_wait) ∧
  Z.of_nat (requests st') * poll_interval ≤ elapsed st' + poll_interval.
Proof.
  intros Hp Hlat. revert st. induction fuel as [|fuel IH]; intros st Hinv Hlast H; [done|].
  simpl in H. destruct (elapsed st <? max_wait) eqn:E.
  - apply Z.ltb_lt in E. specialize (Hlat (requests st)).
    destruct (replicate.poll_body _ _ _ _) as [st1|o1 st1] eqn:Hb.
    + apply poll_body_continue in Hb as (_ & Hreq & Hel & _). simpl in *.
      apply IH in H; [done| |]; rewrite Hreq; [lia|right; lia].
    + simplify_eq. apply poll_body_stop in Hb as (Hreq & Hel & _). simpl in *.
      rewrite Hreq, Hel, Nat2Z.inj_succ. split; [right; nia|nia].
  - simplify_eq. split; [done|lia].
Qed.

(** X16. The loop is frugal.  With a positive [poll_interval] and GETs
    that take no negative time, a run that ends has made its last GET
    before [max_wait] had passed, so that [(requests - 1) * poll_interval <
    max_wait], and every GET but possibly the last was followed by a sleep;
    with [max_wait <= 0] it makes no GET at all and raises the timeout. *)
Theorem poll_request_bound (vendor : string → PollEnv) (task_id poll_url : string)
    (max_wait poll_interval : Z) (fuel : nat) (o : Outcome GenerationResult)
    (st : LoopState) :
  0 < poll_interval →
  (∀ k, 0 ≤ latency (vendor poll_url) k) →
  replicate._poll_prediction vendor task_id poll_url max_wait poll_interval fuel
  = Some (o, st) →
  (requests st = 0%nat ∨ (Z.of_nat (requests st) - 1) * poll_interval < max_wait) ∧
  Z.of_nat (requests st) * poll_interval ≤ elapsed st + poll_interval ∧
  (max_wait ≤ 0 → requests st = 0%nat ∧ o = Raise (PollTimeout max_wait)).
Proof.
  intros Hp Hlat H. unfold replicate._poll_prediction in H.
  pose proof (poll_loop_requests (vendor poll_url) task_id max_wait poll_interval
                fuel loop_entry o st Hp Hlat) as Hq.
  simpl in Hq. destruct (Hq ltac:(lia) ltac:(by left) H) as [Hlast Hsleeps].
  split; [done|]. split; [done|]. intros Hm.
  assert (requests st = 0%nat) as Hzero.
  { destruct Hlast as [?|Hlast]; [done|].
    destruct (requests st) as [|n]; [done|]. exfalso.
    assert (0 ≤ (Z.of_nat (S n) - 1) * poll_interval) by (apply Z.mul_nonneg_nonneg; lia).
    lia. }
  split; [done|].
  apply poll_loop_outcome in H as [[? _]|[Hpos _]]; [done|lia].
Qed.

Lemma poll_request_bound_witness :
  (11%nat = 0%nat ∨ (Z.of_nat 11 - 1) * 5 < 300) ∧
  Z.of_nat 11 * 5 ≤ 50 + 5 ∧
  (300 ≤ 0 → 11%nat = 0%nat ∧
             Raise (A := GenerationResult) (PollFailedAfterRetries "unavailable")
             = Raise (PollTimeout 300)).
Proof.
  refine (poll_request_bound (λ _, always_unavailable) "task" "url" 300 5 12
            (Raise (PollFailedAfterRetries "unavailable"))
            {| requests := 11; retry_count := 11; elapsed := 50 |} _ _ eq_refl).
  - lia.
  - intros k. simpl. lia.
Defined.

Lemma poll_loop_elapsed env task_id max_wait poll_interval fuel st o st' :
  0 ≤ poll_interval →
  (∀ k, latency env k = 0) →
  elapsed st < max_wait + poll_interval →
  replicate.poll_loop env task_id max_wait poll_interval fuel st = Some (o, st') →
  elapsed st' < max_wait + poll_interval.
Proof.
  intros Hp Hlat. revert st. induction fuel as [|fuel IH]; intros st Hinv H; [done|].
  simpl in H. destruct (elapsed st <? max_wait) eqn:E.
  - apply Z.ltb_lt in E. specialize (Hlat (requests st)).
    destruct (replicate.poll_body _ _ _ _) as [st1|o1 st1] eqn:Hb.
    + apply poll_body_continue in Hb as (_ & _ & Hel & _). simpl in *.
      apply IH in H; [done|]. lia.
    + simplify_eq. apply poll_body_stop in Hb as (_ & Hel & _). simpl in *. lia.
  - by simplify_eq.
Qed.

(** X17. Whatever the vendor answers, a poll with a positive
    [poll_interval] ends: [poll_fuel max_wait poll_interval] iterations are
    enough, and more iterations give the same outcome.  When GETs take no
    time and [max_wait] is not negative, the elapsed time at the end is
    below [max_wait + poll_interval], whichever way the loop ends. *)
Theorem poll_always_ends (vendor : string → PollEnv) (task_id poll_url : string)
    (max_wait poll_interval : Z) :
  0 < poll_interval →
  (∀ k, 0 ≤ latency (vendor poll_url) k) →
  ∃ o st,
    (∀ fuel, (poll_fuel max_wait poll_interval ≤ fuel)%nat →
       replicate._poll_prediction vendor task_id poll_url max_wait poll_interval fuel
       = Some (o, st)) ∧
    ((∀ k, latency (vendor poll_url) k = 0) → 0 ≤ max_wait →
     elapsed st < max_wait + poll_interval).
Proof.
  intros Hp Hlat. unfold replicate._poll_prediction.
  destruct (poll_loop_terminates (vendor poll_url) task_id max_wait poll_interval
              _ loop_entry Hp Hlat (poll_fuel_covers max_wait poll_interval Hp))
    as [[o st] Hrun].
  fold (poll_fuel max_wait poll_interval) in Hrun.
  exists o, st. split.
  - intros fuel Hfuel. by apply (poll_loop_mono _ _ _ _ _ _ _ _ Hrun).
  - intros Hzero Hm.
    apply (poll_loop_elapsed _ _ _ _ _ _ _ _ (Z.lt_le_incl _ _ Hp) Hzero) in Hrun;
      [done|]. simpl. lia.
Qed.

Lemma poll_always_ends_witness :
  ∃ o st,
    (∀ fuel, (poll_fuel 300 5 ≤ fuel)%nat →
       replicate._poll_prediction (λ _, flaky_vendor) "task" "url" 300 5 fuel
       = Some (o, st)) ∧
    ((∀ k, latency flaky_vendor k = 0) → 0 ≤ 300 → elapsed st < 300 + 5).
Proof.
  apply (poll_always_ends (λ _, flaky_vendor) "task" "url" 300 5).
  - lia.
  - intros k. simpl. lia.
Defined.

(** ** The fan-out, beyond the claims *)

Lemma run_futures_total (f : nat → string → option (Outcome GenerationResult))
    (task_ids : list string) futures :
  run_futures f task_ids = Some futures →
  ∀ i tid, task_ids !! i = Some tid → is_Some (f i tid).
Proof.
  unfold run_futures. intros Hrun i tid Ht. apply mapM_Some in Hrun.
  assert (imap pair task_ids !! i = Some (i, tid)) as Hl
    by (by rewrite list_lookup_imap, Ht).
  destruct (Forall2_lookup_l _ _ _ _ _ Hrun Hl) as ([tid' o] & _ & Hg).
  simpl in Hg. destruct (f i tid); [eauto|done].
Qed.

Lemma poll_many_inv (f : nat → string → option (Outcome GenerationResult))
    (order : list nat) (task_ids : list string) (results : gmap string GenerationResult) :
  order ≡ₚ seq 0 (length task_ids) →
  poll_many f order task_ids = Some results →
  fan_out_isolated f task_ids results.
Proof.
  intros Hperm Hrun.
  assert (∀ i tid, task_ids !! i = Some tid → is_Some (f i tid)) as Hdone.
  { destruct task_ids as [|t ts]; [by intros i tid H|].
    unfold poll_many in Hrun.
    destruct (run_futures f (t :: ts)) as [futures|] eqn:Hf; [|done].
    by eapply run_futures_total. }
  destruct (fan_out_isolated_intro f order task_ids Hperm Hdone) as (results' & Hrun' & Hiso).
  rewrite Hrun in Hrun'. by simplify_eq.
Qed.

Lemma run_futures_ids (f : nat → string → option (Outcome GenerationResult))
    (task_ids : list string) futures :
  run_futures f task_ids = Some futures → futures.*1 = task_ids.
Proof.
  unfold run_futures. intros Hrun. apply mapM_Some in Hrun.
  apply list_eq. intros i. rewrite list_lookup_fmap.
  destruct (task_ids !! i) as [tid|] eqn:Ht.
  - assert (imap pair task_ids !! i = Some (i, tid)) as Hl
      by (by rewrite list_lookup_imap, Ht).
    destruct (Forall2_lookup_l _ _ _ _ _ Hrun Hl) as ([tid' o] & Hfi & Hg).
    rewrite Hfi. simpl in *. destruct (f i tid); by simplify_eq/=.
  - destruct (futures !! i) as [y|] eqn:Hfi; [|done].
    destruct (Forall2_lookup_r _ _ _ _ _ Hrun Hfi) as (x & Hl & _).
    rewrite list_lookup_imap, Ht in Hl. done.
Qed.

Lemma store_result_commute futures results i j :
  NoDup futures.*1 →
  store_result futures (store_result futures results i) j
  = store_result futures (store_result futures results j) i.
Proof.
  intros Hnd. destruct (decide (i = j)) as [->|Hne]; [done|].
  unfold store_result.
  destruct (futures !! i) as [[t1 o1]|] eqn:Hi, (futures !! j) as [[t2 o2]|] eqn:Hj;
    try done.
  apply insert_insert_ne. intros ->.
  apply Hne. eapply (NoDup_lookup (futures.*1)); [done| |].
  - by rewrite list_lookup_fmap, Hi.
  - by rewrite list_lookup_fmap, Hj.
Qed.

Lemma collect_permutation futures order order' :
  NoDup futures.*1 → order ≡ₚ order' →
  ∀ results, foldl (store_result futures) results order
             = foldl (store_result futures) results order'.
Proof.
  intros Hnd Hperm. induction Hperm as [|x l l' _ IH|x y l|l l' l'' _ IH1 _ IH2];
    intros results; simpl.
  - done.
  - apply IH.
  - by rewrite (store_result_commute _ _ y x Hnd).
  - by rewrite IH1.
Qed.

Lemma poll_many_order (f : nat → string → option (Outcome GenerationResult))
    (order order' : list nat) (task_ids : list string) :
  NoDup task_ids → order ≡ₚ order' →
  poll_many f order task_ids = poll_many f order' task_ids.
Proof.
  intros Hnd Hperm. unfold poll_many. destruct task_ids as [|t ts]; [done|].
  destruct (run_futures f (t :: ts)) as [futures|] eqn:Hf; [|done]. simpl.
  f_equal. unfold collect. apply collect_permutation; [|done].
  by rewrite (run_futures_ids _ _ _ Hf).
Qed.

(** X18. For task ids that are pairwise distinct, the dictionary that
    [poll_tasks_parallel] returns does not depend on the order in which
    the workers finish, in either adapter. *)
Theorem poll_tasks_parallel_order_independent (vendor : nat → string → PollEnv)
    (poll_wavespeed_task : nat → wavespeed.PollHelper)
    (_task_poll_urls : gmap string string) (order order' : list nat)
    (task_ids : list string) (max_wait poll_interval : Z) (fuel : nat) :
  NoDup task_ids →
  order ≡ₚ order' →
  replicate.poll_tasks_parallel vendor _task_poll_urls order task_ids
    max_wait poll_interval fuel
  = replicate.poll_tasks_parallel vendor _task_poll_urls order' task_ids
      max_wait poll_interval fuel ∧
  wavespeed.poll_tasks_parallel poll_wavespeed_task _task_poll_urls order task_ids
    max_wait poll_interval
  = wavespeed.poll_tasks_parallel poll_wavespeed_task _task_poll_urls order' task_ids
      max_wait poll_interval.
Proof.
  intros Hnd Hperm. split; by apply poll_many_order.
Qed.

Lemma poll_tasks_parallel_order_independent_witness :
  replicate.poll_tasks_parallel (λ _, drops_b) three_urls [2; 0; 1]%nat ["a"; "b"; "c"]
    600 5 (poll_fuel 600 5)
  = replicate.poll_tasks_parallel (λ _, drops_b) three_urls [0; 1; 2]%nat ["a"; "b"; "c"]
      600 5 (poll_fuel 600 5).
Proof.
  refine (proj1 (poll_tasks_parallel_order_independent (λ _, drops_b)
                   (λ _ _ _ _ _ _, None) three_urls [2; 0; 1]%nat [0; 1; 2]%nat
                   ["a"; "b"; "c"] 600 5 (poll_fuel 600 5) _
                   (Permutation_cons_append [0; 1]%nat 2%nat))).
  repeat (apply NoDup_cons; split;
            [intros H; repeat (apply elem_of_cons in H as [H|H]; [discriminate|]);
             by apply not_elem_of_nil in H|]).
  apply NoDup_nil. done.
Defined.

(** X19. A task id that the adapter has no poll URL for does not make
    [poll_tasks_parallel] raise: its entry is an [Error] for that id,
    "No poll URL for task" in Replicate and, in WaveSpeed, the "No poll
    URL stored" error of [poll_video] (also when the id came from
    [submit_image]); this holds even when the id occurs several times. *)
Theorem poll_tasks_parallel_unknown_handle (vendor : nat → string → PollEnv)
    (poll_wavespeed_task : nat → wavespeed.PollHelper)
    (_task_poll_urls : gmap string string) (order : list nat)
    (task_ids : list string) (max_wait poll_interval : Z) (fuel : nat)
    (tid : string) (results : gmap string GenerationResult) :
  order ≡ₚ seq 0 (length task_ids) →
  tid ∈ task_ids →
  _task_poll_urls !! tid = None →
  (replicate.poll_tasks_parallel vendor _task_poll_urls order task_ids
     max_wait poll_interval fuel = Some results →
   results !! tid = Some (Error tid (NoPollUrl tid))) ∧
  (wavespeed.poll_tasks_parallel poll_wavespeed_task _task_poll_urls order task_ids
     max_wait poll_interval = Some results →
   results !! tid = Some (Error tid (NoPollUrlStored WaveSpeed tid Video))).
Proof.
  intros Hperm Hin Hnone.
  assert (∀ f e,
            (∀ i, f i tid = Some (Raise e)) →
            poll_many f order task_ids = Some results →
            results !! tid = Some (Error tid e)) as Hgen.
  { intros f e Hf Hrun.
    destruct (poll_many_inv _ _ _ _ Hperm Hrun) as (Hdom & _ & Hfrom & _).
    assert (tid ∈ dom results) as Hd by (by rewrite Hdom, elem_of_list_to_set).
    apply elem_of_dom in Hd as [r Hr]. rewrite Hr.
    destruct (Hfrom _ _ Hr) as (i & o & _ & Ho & ->).
    rewrite Hf in Ho. by simplify_eq. }
  split; apply Hgen; intros i.
  - unfold replicate._poll_one. by rewrite Hnone.
  - unfold wavespeed.poll_video. by rewrite Hnone.
Qed.

Lemma poll_tasks_parallel_unknown_handle_witness :
  (<["zz" := Error "zz" (NoPollUrl "zz")]>
     (<["a" := Success "a" (JStr "https://api/a")]> ∅)
   : gmap string GenerationResult) !! "zz"
  = Some (Error "zz" (NoPollUrl "zz")).
Proof.
  refine (proj1 (poll_tasks_parallel_unknown_handle (λ _, drops_b)
                   (λ _ _ _ _ _ _, None) three_urls [0; 1]%nat ["a"; "zz"]
                   600 5 (poll_fuel 600 5) "zz"
                   (<["zz" := Error "zz" (NoPollUrl "zz")]>
                      (<["a" := Success "a" (JStr "https://api/a")]> ∅))
                   _ _ _) _).
  - reflexivity.
  - apply elem_of_cons. right. apply elem_of_cons. by left.
  - reflexivity.
  - reflexivity.
Defined.

Lemma poll_loop_returns_own_id env task_id max_wait poll_interval fuel st r st' :
  replicate.poll_loop env task_id max_wait poll_interval fuel st = Some (Return r, st') →
  ∃ url, r = Success task_id url.
Proof.
  intros H. apply poll_loop_outcome in H as [[? _]|(_ & st0 & Hb)]; [done|].
  apply poll_body_stop in Hb
    as (_ & _ & [(? & ? & url & _ & _ & _ & _ & ? & _)
                |[[? ?]|[[? ?]|[(? & ? & _ & ?)|[[? ?]|[?|[?|[_ ?]]]]]]]]); try done.
  simplify_eq. eauto.
Qed.

(** X20. Polling in a batch is polling one by one with failures kept
    apart.  For a task id that occurs once in the input and has a poll URL
    stored, the entry of Replicate's [poll_tasks_parallel] is what
    [poll_image] and [poll_video] return for it with the same waits and the
    same vendor behaviour, or the [Error] of what they raise; and every
    entry of the dictionary carries its own key as its task id. *)
Theorem poll_tasks_parallel_agrees_with_poll (vendor : nat → string → PollEnv)
    (_task_poll_urls : gmap string string) (order : list nat)
    (task_ids : list string) (max_wait poll_interval : Z) (fuel : nat)
    (results : gmap string GenerationResult) :
  order ≡ₚ seq 0 (length task_ids) →
  replicate.poll_tasks_parallel vendor _task_poll_urls order task_ids
    max_wait poll_interval fuel = Some results →
  (∀ i tid,
     task_ids !! i = Some tid → (∀ j, task_ids !! j = Some tid → j = i) →
     is_Some (_task_poll_urls !! tid) → _task_poll_urls !! tid ≠ Some "" →
     ∃ o st,
       replicate.poll_image (vendor i) _task_poll_urls tid max_wait poll_interval fuel
       = Some (o, st) ∧
       replicate.poll_video (vendor i) _task_poll_urls tid max_wait poll_interval fuel
       = Some (o, st) ∧
       results !! tid = Some (result_of tid o)) ∧
  (∀ tid r, results !! tid = Some r → result_task_id r = tid).
Proof.
  intros Hperm Hrun. unfold replicate.poll_tasks_parallel in Hrun.
  destruct (poll_many_inv _ _ _ _ Hperm Hrun) as (_ & Hdone & Hfrom & Huniq).
  split.
  - intros i tid Ht Hone [url Hurl] Hne.
    assert (url ≠ "") as Hu by congruence.
    destruct (poll_found (vendor i) _ _ _ max_wait poll_interval fuel Hurl Hu)
      as [Hi Hv].
    destruct (Hdone _ _ Ht) as [o Ho]. simpl in Ho.
    assert (∃ st, replicate._poll_prediction (vendor i) tid url max_wait poll_interval fuel
                  = Some (o, st)) as [st Hst].
    { unfold replicate._poll_one in Ho. rewrite Hurl in Ho.
      apply nonempty_true in Hu. rewrite Hu in Ho.
      destruct (replicate._poll_prediction _ _ _ _ _ _) as [[o' st]|]; [|done].
      simpl in Ho. simplify_eq. eauto. }
    exists o, st. rewrite Hi, Hv. repeat split; try done.
    destruct (Huniq _ _ Ht Hone) as [Hraise Hret].
    destruct o as [r|e]; [by apply Hret | by apply Hraise].
  - intros tid r Hr. destruct (Hfrom _ _ Hr) as (i & o & _ & Ho & ->). simpl in Ho.
    destruct o as [r|e]; [|done]. simpl.
    unfold replicate._poll_one in Ho.
    destruct (_task_poll_urls !! tid) as [url|]; [|done].
    destruct (nonempty url); [|done].
    unfold replicate._poll_prediction in Ho.
    destruct (replicate.poll_loop _ _ _ _ _ _) as [[o' st]|] eqn:Hloop; [|done].
    simpl in Ho. simplify_eq.
    apply poll_loop_returns_own_id in Hloop as [url' ->]. done.
Qed.

Lemma poll_tasks_parallel_agrees_with_poll_witness :
  ∃ o st,
    replicate.poll_image drops_b three_urls "c" 600 5 (poll_fuel 600 5) = Some (o, st) ∧
    replicate.poll_video drops_b three_urls "c" 600 5 (poll_fuel 600 5) = Some (o, st) ∧
    (<["c" := Success "c" (JStr "https://api/c")]> ∅ : gmap string GenerationResult) !! "c"
    = Some (result_of "c" o).
Proof.
  refine (proj1 (poll_tasks_parallel_agrees_with_poll (λ _, drops_b)
                   three_urls [0]%nat ["c"] 600 5 (poll_fuel 600 5)
                   (<["c" := Success "c" (JStr "https://api/c")]> ∅)
                   _ _) 0%nat "c" eq_refl _ _ _).
  - reflexivity.
  - reflexivity.
  - intros [|j] H; [done|]. simpl in H. by rewrite lookup_nil in H.
  - vm_compute. eauto.
  - vm_compute. discriminate.
Defined.

(** ** WaveSpeed submissions *)

(** X21. WaveSpeed's [submit_image] and [submit_video] check their
    arguments before they call the submission helper and store exactly what
    it returns: a call that raises leaves the dictionary as it was; a call
    that returns a task id got that id and a poll URL from the helper and
    stored the URL under the id, changing nothing else; an image model
    outside the table, or a video duration that [int] rejects, raises
    whatever the helper would do. *)
Theorem wavespeed_submit_stores_helper_answer
    (submit_wavespeed_task : wavespeed.SubmitHelper) (prompt : string)
    (reference_urls : option (list string)) (image_url : option string)
    (aspect_ratio resolution model mode : string) (duration : IntArg)
    (urls : gmap string string) :
  let image := wavespeed.submit_image submit_wavespeed_task prompt reference_urls
                 aspect_ratio resolution model urls in
  let video := wavespeed.submit_video submit_wavespeed_task prompt image_url model
                 duration aspect_ratio mode urls in
  (∀ call, call = image ∨ call = video →
     match call.1 with
     | Raise _ => call.2 = urls
     | Return task_id =>
         ∃ model_id payload poll_url,
           submit_wavespeed_task model_id payload = Return (task_id, poll_url) ∧
           call.2 = <[task_id := poll_url]> urls
     end) ∧
  (dict_get wavespeed._IMAGE_MODELS model = None →
   ∀ other_helper,
     wavespeed.submit_image other_helper prompt reference_urls aspect_ratio resolution
       model urls
     = (Raise (UnsupportedModel WaveSpeed Image model ["gpt-image-1.5"]), urls)) ∧
  ((∀ n, duration ≠ IntValue n) →
   ∀ other_helper,
     wavespeed.submit_video other_helper prompt image_url model duration aspect_ratio
       mode urls = video ∧
     ∃ e, video = (Raise e, urls)).
Proof.
  intros image video. subst image video. split; [|split].
  - intros call [-> | ->].
    + unfold wavespeed.submit_image.
      destruct (dict_get wavespeed._IMAGE_MODELS model) as [model_id|]; [|done].
      destruct (submit_wavespeed_task _ _) as [[t u]|e] eqn:Hs; simpl; eauto.
    + unfold wavespeed.submit_video.
      match goal with
      | |- context [if ?b then ?x else ?y] => destruct (if b then x else y) as [model_id|]
      end; [|done].
      destruct (wavespeed.video_payload _ _ _ _) as [payload|e]; simpl; [|done].
      destruct (submit_wavespeed_task _ _) as [[t u]|e] eqn:Hs; simpl; eauto.
  - intros Hnone other_helper. unfold wavespeed.submit_image. by rewrite Hnone.
  - intros Hint other_helper. unfold wavespeed.submit_video.
    match goal with
    | |- context [if ?b then ?x else ?y] => destruct (if b then x else y) as [model_id|]
    end; [|eauto].
    assert (∃ e, wavespeed.video_payload prompt image_url model duration = Raise e)
      as [e ->]; [|simpl; eauto].
    assert (∃ e, py_int duration = Raise e) as [e He].
    { destruct duration as [n| | |]; simpl; eauto. by destruct (Hint n). }
    unfold wavespeed.video_payload. rewrite He.
    destruct (String.prefix "kling" model); [simpl; eauto|].
    destruct (String.prefix "sora" model); simpl; eauto.
Qed.

Lemma wavespeed_submit_stores_helper_answer_witness :
  wavespeed.submit_image (λ _ _, Return ("w1", "https://ws/w1")) "a cat" None
    "9:16" "1K" "flux-dev" ∅
  = (Raise (UnsupportedModel WaveSpeed Image "flux-dev" ["gpt-image-1.5"]), ∅).
Proof.
  exact (proj1 (proj2 (wavespeed_submit_stores_helper_answer
                         (λ _ _, Raise (OtherException "unreachable")) "a cat" None None
                         "9:16" "1K" "flux-dev" "pro" (IntValue 5) ∅))
               eq_refl (λ _ _, Return ("w1", "https://ws/w1"))).
Defined.
